(** * runway_nodes.py: the two Runway nodes, embedded and verified

    The module defines two host nodes.  [RunwayVideoGenerator] encodes two
    frames, posts a generation request and polls the task until it succeeds
    or the deadline passes; [RunwayVideoPreview] optionally downloads the
    result.  Both are sequential, blocking Python: the embedding is a state
    and exception monad over a [world] that carries the wall clock, the
    replies of the remote service and the journal of effects.

    Conventions.
    - Time is in milliseconds ([time.time()] is seconds as a float; the
      node's [max_wait] is an INT of seconds).  [time.sleep(10)] advances
      the clock by exactly ten seconds, an HTTP request by the latency of
      its reply.
    - [print] writes to the diagnostic stream only and is left out, except
      that the evaluation of its argument is kept where it can raise.
    - Values built by f-strings are kept as a list of fragments, the
      formatting of the interpolated value left to Python. *)

From Stdlib Require Import ZArith NArith QArith Bool List String Ascii Lia.
From Stdlib Require Import Strings.Byte DecimalString.
Import ListNotations.

Set Warnings "-register-all".

Local Open Scope string_scope.
Local Open Scope list_scope.
Local Open Scope Z_scope.

(** ** JSON values, as [response.json()] returns them *)

Inductive json : Type :=
| JNull
| JBool (b : bool)
| JInt (z : Z)
| JFloat (q : Q)
| JStr (s : string)
| JList (l : list json)
| JDict (d : list (string * json)).

(** A dict is kept as an association list read from the left. *)
Fixpoint dict_lookup (k : string) (d : list (string * json)) : option json :=
  match d with
  | [] => None
  | (k', v) :: d' => if String.eqb k k' then Some v else dict_lookup k d'
  end.

(** [d[k] = v]: the entry is replaced where the key exists, added otherwise. *)
Fixpoint dict_set (k : string) (v : json) (d : list (string * json))
  : list (string * json) :=
  match d with
  | [] => [(k, v)]
  | (k', v') :: d' =>
      if String.eqb k k' then (k', v) :: d' else (k', v') :: dict_set k v d'
  end.

(** Python truthiness of a JSON value ([not task_id]). *)
Definition truthy (j : json) : bool :=
  match j with
  | JNull => false
  | JBool b => b
  | JInt z => negb (z =? 0)
  | JFloat q => negb (Qeq_bool q 0)
  | JStr s => negb (String.eqb s "")
  | JList l => match l with [] => false | _ => true end
  | JDict d => match d with [] => false | _ => true end
  end.

(** [j == "lit"] for a string literal. *)
Definition py_eq_str (j : json) (lit : string) : bool :=
  match j with
  | JStr s => String.eqb s lit
  | _ => false
  end.

(** ** HTTP responses and Python exceptions *)

Record response : Type := mkResponse {
  status_code : Z;
  text : string;                 (* response.text *)
  content : list byte;           (* response.content *)
  json_body : option json        (* response.json(); None when it does not parse *)
}.

(** The exception classes that occur.  Every class of
    [requests.exceptions] derives from [RequestException] and carries a
    [response] attribute, which is [None] unless the server answered. *)
Inductive exn : Type :=
| RuntimeError (msg : list frag)
| RequestException (cls : string) (resp : option response)
| AttributeError (msg : string)
| TypeError (msg : string)
| KeyError (key : json)
| IndexError (msg : string)
| OSError (msg : string)
| ValueError (msg : string)
with frag : Type :=
| Lit (s : string)
| Num (z : Z)                    (* {n} for an int *)
| Fmt (j : json)                 (* {v} for a JSON value *)
| Dumps (j : json)               (* {json.dumps(v, indent=2)} *)
| StrOf (e : exn).               (* {str(e)} *)

(** [hasattr(e, 'response')] *)
Definition hasattr_response (e : exn) : bool :=
  match e with
  | RequestException _ _ => true
  | _ => false
  end.

(** [isinstance(e, requests.exceptions.RequestException)] *)
Definition is_RequestException (e : exn) : bool :=
  match e with
  | RequestException _ _ => true
  | _ => false
  end.

(** ** The world *)

Inductive event : Type :=
| HttpPost (url : string) (headers : list (string * string)) (body : json)
| HttpGet (url : list frag) (headers : list (string * string))
| Sleep (seconds : Z)
| FileOpen (path : string)
| FileWrite (path : string) (data : list byte).

Record reply : Type := mkReply {
  latency : N;                   (* milliseconds until the call returns *)
  answer : exn + response        (* the call raises, or returns a response *)
}.

Record world : Type := mkWorld {
  now : Z;                       (* wall clock, milliseconds *)
  served : nat;                  (* HTTP calls made so far *)
  journal : list event;          (* effects so far, oldest first *)
  network : nat -> reply;        (* the reply to the k-th HTTP call *)
  disk_open : string -> option exn;   (* open(path, "wb") raises *)
  disk_write : string -> option exn   (* f.write raises *)
}.

Inductive result (A : Type) : Type :=
| Ok (a : A)
| Raise (e : exn)
| Starved.                       (* the loop ran out of fuel *)
Arguments Ok {A} a.
Arguments Raise {A} e.
Arguments Starved {A}.

Definition M (A : Type) : Type := world -> result A * world.

Definition ret {A} (a : A) : M A := fun w => (Ok a, w).
Definition raise {A} (e : exn) : M A := fun w => (Raise e, w).
Definition starve {A} : M A := fun w => (Starved, w).

Definition bind {A B} (m : M A) (k : A -> M B) : M B :=
  fun w =>
    match m w with
    | (Ok a, w') => k a w'
    | (Raise e, w') => (Raise e, w')
    | (Starved, w') => (Starved, w')
    end.

Notation "x <- m ;; k" := (bind m (fun x => k))
  (at level 61, m at next level, right associativity).
Notation "m ;;; k" := (bind m (fun _ => k))
  (at level 61, right associativity).

(** [try: m except <classes> as e: h e] *)
Definition try_except {A} (catches : exn -> bool) (m : M A) (h : exn -> M A)
  : M A :=
  fun w =>
    match m w with
    | (Raise e, w') => if catches e then h e w' else (Raise e, w')
    | r => r
    end.

(** [except Exception]: every class above derives from [Exception]. *)
Definition any_Exception (e : exn) : bool := true.

Definition record_event (ev : event) (w : world) : world :=
  mkWorld (now w) (served w) (journal w ++ [ev])
          (network w) (disk_open w) (disk_write w).

Definition advance (ms : Z) (w : world) : world :=
  mkWorld (now w + ms) (served w) (journal w)
          (network w) (disk_open w) (disk_write w).

Definition time_time : M Z := fun w => (Ok (now w), w).

Definition time_sleep (seconds : Z) : M unit :=
  fun w => (Ok tt, advance (seconds * 1000) (record_event (Sleep seconds) w)).

(** One HTTP call: the call is journalled, the clock moves by the latency of
    the reply, and the reply is returned or raised. *)
Definition http_call (ev : event) : M response :=
  fun w =>
    let r := network w (served w) in
    let w' := mkWorld (now w + Z.of_N (latency r)) (S (served w))
                      (journal w ++ [ev])
                      (network w) (disk_open w) (disk_write w) in
    match answer r with
    | inl e => (Raise e, w')
    | inr resp => (Ok resp, w')
    end.

Definition requests_get (url : list frag) (headers : list (string * string))
  : M response := http_call (HttpGet url headers).

Definition requests_post (url : string) (headers : list (string * string))
  (body : json) : M response := http_call (HttpPost url headers body).

(** [response.raise_for_status()] *)
Definition raise_for_status (r : response) : M unit :=
  if (400 <=? status_code r) && (status_code r <? 600)
  then raise (RequestException "HTTPError" (Some r))
  else ret tt.

(** [response.json()] (requests 2.27 and later raise their own
    [JSONDecodeError], a [RequestException] without a response). *)
Definition response_json (r : response) : M json :=
  match json_body r with
  | Some j => ret j
  | None => raise (RequestException "JSONDecodeError" None)
  end.

Definition none_has_no_text : exn :=
  AttributeError "'NoneType' object has no attribute 'text'".

(** [e.response.text] *)
Definition exn_response_text (e : exn) : M string :=
  match e with
  | RequestException _ (Some r) => ret (text r)
  | RequestException _ None => raise none_has_no_text
  | _ => raise (AttributeError "object has no attribute 'response'")
  end.

(** [obj.get(key, default)] *)
Definition py_get (obj : json) (key : string) (default : json) : M json :=
  match obj with
  | JDict d =>
      match dict_lookup key d with
      | Some v => ret v
      | None => ret default
      end
  | _ => raise (AttributeError "object has no attribute 'get'")
  end.

(** [len(v)] *)
Definition py_len (v : json) : M Z :=
  match v with
  | JList l => ret (Z.of_nat (List.length l))
  | JDict d => ret (Z.of_nat (List.length d))
  | JStr s => ret (Z.of_nat (String.length s))
  | _ => raise (TypeError "object has no len()")
  end.

(** [v[0]] *)
Definition py_first (v : json) : M json :=
  match v with
  | JList (x :: _) => ret x
  | JList [] => raise (IndexError "list index out of range")
  | JStr (String c _) => ret (JStr (String c EmptyString))
  | JStr EmptyString => raise (IndexError "string index out of range")
  | JDict _ => raise (KeyError (JInt 0))      (* JSON keys are strings *)
  | _ => raise (TypeError "object is not subscriptable")
  end.

(** ** RunwayVideoGenerator.poll_status *)

Definition tasks_url (task_id : json) : list frag :=
  [Lit "https://api.dev.runwayml.com/v1/tasks/"; Fmt task_id].

Definition poll_headers (api_key : string) : list (string * string) :=
  [("Authorization", ("Bearer " ++ api_key)%string);
   ("X-Runway-Version", "2024-11-06")].

(** The body of the [try] of one iteration: [Some result] when the function
    returns from inside the loop, [None] when the iteration ends after its
    sleep. *)
Definition poll_try (task_id : json) (headers : list (string * string))
  : M (option json) :=
  response <- requests_get (tasks_url task_id) headers ;;
  raise_for_status response ;;;
  result <- response_json response ;;
  status <- py_get result "status" (JStr "UNKNOWN") ;;
  found <-
    (if py_eq_str status "SUCCEEDED" then
       match result with
       | JDict d =>
           match dict_lookup "output" d with
           | Some output =>
               n <- py_len output ;;
               if 0 <? n then
                 first <- py_first output ;;
                 ret (Some (JDict (dict_set "video_url" first d)))
               else ret None
           | None => ret None
           end
       | _ => ret None
       end
     else if py_eq_str status "FAILED" || py_eq_str status "CANCELED" then
       raise (RuntimeError [Lit "Task failed: "; Dumps result])
     else ret None) ;;
  match found with
  | Some r => ret (Some r)
  | None => time_sleep 10 ;;; ret None
  end.

(** The [except Exception as e] clause of the iteration. *)
Definition poll_except (e : exn) : M (option json) :=
  (if hasattr_response e
   then (_ <- exn_response_text e ;; ret tt)
   else ret tt) ;;;
  time_sleep 10 ;;;
  ret None.

(** One iteration of the loop, after its test and its count. *)
Definition poll_iteration (task_id : json) (headers : list (string * string))
  : M (option json) :=
  try_except any_Exception (poll_try task_id headers) poll_except.

Definition timeout_error (max_wait attempts : Z) : exn :=
  RuntimeError [Lit "Timeout after "; Num max_wait; Lit "s and ";
                Num attempts; Lit " polling attempts"].

Fixpoint poll_loop (fuel : nat) (task_id : json)
  (headers : list (string * string)) (max_wait end_time attempts : Z)
  : M json :=
  match fuel with
  | O => starve
  | S fuel' =>
      t <- time_time ;;
      if t <? end_time then
        let attempts := attempts + 1 in
        r <- poll_iteration task_id headers ;;
        match r with
        | Some result => ret result
        | None => poll_loop fuel' task_id headers max_wait end_time attempts
        end
      else raise (timeout_error max_wait attempts)
  end.

(** Every iteration sleeps ten seconds or leaves the function, so the loop
    test passes at most [max_wait / 10 + 1] times. *)
Definition poll_fuel (max_wait : Z) : nat := S (S (Z.to_nat (max_wait / 10))).

Definition poll_status (task_id : json) (api_key : string) (max_wait : Z)
  : M json :=
  let headers := poll_headers api_key in
  start_time <- time_time ;;
  let end_time := start_time + max_wait * 1000 in
  poll_loop (poll_fuel max_wait) task_id headers max_wait end_time 0.

(** ** RunwayVideoPreview.preview_video *)

(** [os.path.join(a, b)] of posixpath, for two components. *)
Definition starts_with_sep (s : string) : bool :=
  match s with
  | String c _ => Ascii.eqb c "/"
  | EmptyString => false
  end.

Fixpoint ends_with_sep (s : string) : bool :=
  match s with
  | EmptyString => false
  | String c EmptyString => Ascii.eqb c "/"
  | String _ s' => ends_with_sep s'
  end.

Definition os_path_join (a b : string) : string :=
  if starts_with_sep b then b
  else if String.eqb a "" || ends_with_sep a then (a ++ b)%string
  else (a ++ "/" ++ b)%string.

Definition file_open (path : string) : M unit :=
  fun w =>
    match disk_open w path with
    | Some e => (Raise e, w)
    | None => (Ok tt, record_event (FileOpen path) w)
    end.

Definition file_write (path : string) (data : list byte) : M unit :=
  fun w =>
    match disk_write w path with
    | Some e => (Raise e, w)
    | None => (Ok tt, record_event (FileWrite path data) w)
    end.

(** What the node hands back: the function returns [("")], which is the
    bare string, on one path and a 1-tuple on the others. *)
Inductive py_ret : Type :=
| Bare (s : string)
| Tuple1 (s : string).

Definition ret_payload (r : py_ret) : string :=
  match r with
  | Bare s => s
  | Tuple1 s => s
  end.

Definition is_tuple (r : py_ret) : bool :=
  match r with
  | Bare _ => false
  | Tuple1 _ => true
  end.

Definition preview_video (video_url : string) (download : bool)
  (filename : string) : M py_ret :=
  if String.eqb video_url "" then ret (Bare "")
  else if download then
    try_except any_Exception
      (let save_path := os_path_join "output" filename in
       response <- requests_get [Lit video_url] [] ;;
       raise_for_status response ;;;
       file_open save_path ;;;
       file_write save_path (content response) ;;;
       ret (Tuple1 save_path))
      (fun e => ret (Tuple1 video_url))
  else ret (Tuple1 video_url).

(** ** base64, as [base64.b64encode] and [base64.b64decode] (RFC 4648) *)

Module Base64.

Local Open Scope N_scope.

Definition alphabet : string :=
  "ABCDEFGHIJKLMNOPQRSTUVWXYZabcdefghijklmnopqrstuvwxyz0123456789+/".

Definition pad : ascii := "="%char.

Definition digit (n : N) : ascii :=
  match String.get (N.to_nat n) alphabet with
  | Some c => c
  | None => pad
  end.

Definition index (c : ascii) : option N :=
  let n := N_of_ascii c in
  if (65 <=? n) && (n <=? 90) then Some (n - 65)
  else if (97 <=? n) && (n <=? 122) then Some (n - 71)
  else if (48 <=? n) && (n <=? 57) then Some (n + 4)
  else if n =? 43 then Some 62
  else if n =? 47 then Some 63
  else None.

Definition byte_of (n : N) : byte :=
  match Byte.of_N n with
  | Some b => b
  | None => x00
  end.

Fixpoint b64encode (bs : list byte) : string :=
  match bs with
  | [] => EmptyString
  | [a] =>
      let n := Byte.to_N a * 16 in
      String (digit (n / 64)) (String (digit (n mod 64))
        (String pad (String pad EmptyString)))
  | [a; b] =>
      let n := (Byte.to_N a * 256 + Byte.to_N b) * 4 in
      String (digit (n / 4096)) (String (digit (n / 64 mod 64))
        (String (digit (n mod 64)) (String pad EmptyString)))
  | a :: b :: c :: rest =>
      let n := Byte.to_N a * 65536 + Byte.to_N b * 256 + Byte.to_N c in
      String (digit (n / 262144)) (String (digit (n / 4096 mod 64))
        (String (digit (n / 64 mod 64)) (String (digit (n mod 64))
          (b64encode rest))))
  end.

Fixpoint b64decode (s : string) : option (list byte) :=
  match s with
  | EmptyString => Some []
  | String c1 (String c2 (String c3 (String c4 rest))) =>
      match index c1, index c2 with
      | Some s1, Some s2 =>
          if Ascii.eqb c3 pad then
            if Ascii.eqb c4 pad && String.eqb rest "" then
              Some [byte_of ((s1 * 64 + s2) / 16)]
            else None
          else
            match index c3 with
            | Some s3 =>
                if Ascii.eqb c4 pad then
                  if String.eqb rest "" then
                    let n := ((s1 * 64 + s2) * 64 + s3) / 4 in
                    Some [byte_of (n / 256); byte_of (n mod 256)]
                  else None
                else
                  match index c4, b64decode rest with
                  | Some s4, Some tail =>
                      let n := ((s1 * 64 + s2) * 64 + s3) * 64 + s4 in
                      Some (byte_of (n / 65536) :: byte_of (n / 256 mod 256)
                              :: byte_of (n mod 256) :: tail)
                  | _, _ => None
                  end
            | None => None
            end
      | _, _ => None
      end
  | _ => None
  end.

(** The characters of an encoding: the alphabet and the padding. *)
Definition b64_ascii (c : ascii) : bool :=
  match index c with
  | Some _ => true
  | None => Ascii.eqb c pad
  end.

Definition sextets : list N := map N.of_nat (seq 0 64).

Fixpoint all_chars (p : ascii -> bool) (s : string) : bool :=
  match s with
  | EmptyString => true
  | String c s' => p c && all_chars p s'
  end.

End Base64.

(** ** The imaging libraries (torch, numpy, PIL)

    The tensor arithmetic, the resampling filter and the JPEG codec are the
    libraries' own; the node relies on them through this interface only.
    The two laws are what PIL documents: [resize] returns an image of the
    requested size, and a saved JPEG stream records the size of the image
    it was made from. *)

Inductive resampling : Type := NEAREST | BILINEAR | BICUBIC | LANCZOS.

Class Imaging : Type := {
  tensor : Type;
  image : Type;
  image_size : image -> Z * Z;
  (* image.squeeze(0); (image * 255).byte(); Image.fromarray(image.cpu().numpy()) *)
  tensor_to_image : tensor -> exn + image;
  (* image.resize(size, resample) *)
  image_resize : image -> Z * Z -> resampling -> exn + image;
  (* image.save(buffer, format="JPEG", quality=q); buffer.getvalue() *)
  image_save_jpeg : image -> Z -> exn + list byte;
  (* Image.open(BytesIO(data)).size *)
  jpeg_size : list byte -> option (Z * Z);
  resize_size : forall im s f im',
    image_resize im s f = inr im' -> image_size im' = s;
  save_jpeg_size : forall im q data,
    image_save_jpeg im q = inr data -> jpeg_size data = Some (image_size im)
}.

Section Generator.

Context {lib : Imaging}.

(** What the host passes as IMAGE: a tensor; the function also accepts a PIL
    image. *)
Inductive frame : Type :=
| TensorFrame (t : tensor)
| ImageFrame (im : image).

Definition target_size : Z * Z := (384, 384).

Definition encode_image (img : frame) : exn + string :=
  match (match img with
         | TensorFrame t => tensor_to_image t
         | ImageFrame im => inr im
         end) with
  | inl e => inl e
  | inr im =>
      match image_resize im target_size LANCZOS with
      | inl e => inl e
      | inr resized =>
          match image_save_jpeg resized 30 with
          | inl e => inl e
          | inr buffered => inr (Base64.b64encode buffered)
          end
      end
  end.

Definition lift {A} (r : exn + A) : M A :=
  match r with
  | inl e => raise e
  | inr a => ret a
  end.

Definition data_uri (b64 : string) : string :=
  ("data:image/jpeg;base64," ++ b64)%string.

Definition submit_url : string :=
  "https://api.dev.runwayml.com/v1/image_to_video".

Definition submit_headers (api_key : string) : list (string * string) :=
  [("Authorization", ("Bearer " ++ api_key)%string);
   ("X-Runway-Version", "2024-11-06");
   ("Content-Type", "application/json")].

Definition build_payload (uri_first uri_last promptText model : string)
  (duration : Z) (ratio : string) (seed : Z) (watermark : bool) : json :=
  JDict [("promptImage",
          JList [JDict [("uri", JStr uri_first); ("position", JStr "first")];
                 JDict [("uri", JStr uri_last); ("position", JStr "last")]]);
         ("promptText", JStr promptText);
         ("model", JStr model);
         ("duration", JInt duration);
         ("ratio", JStr ratio);
         ("seed", JInt seed);
         ("watermark", JBool watermark)].

(** The [except requests.exceptions.RequestException as e] clause. *)
Definition submit_except {A} (e : exn) : M A :=
  (if hasattr_response e
   then (_ <- exn_response_text e ;; ret tt)
   else ret tt) ;;;
  raise (RuntimeError [Lit "Runway API error: "; StrOf e]).

Definition generate_video (first_frame last_frame : frame)
  (promptText model : string) (duration : Z) (ratio : string) (seed : Z)
  (watermark : bool) (api_key : string) (trigger : bool) (max_wait : Z)
  : M (json * json * frame) :=
  if negb trigger then ret (JStr "", JStr "", first_frame)
  else
    b64_first <- lift (encode_image first_frame) ;;
    b64_last <- lift (encode_image last_frame) ;;
    let payload :=
      build_payload (data_uri b64_first) (data_uri b64_last)
                    promptText model duration ratio seed watermark in
    try_except is_RequestException
      (response <- requests_post submit_url (submit_headers api_key) payload ;;
       raise_for_status response ;;;
       initial_result <- response_json response ;;
       task_id <- py_get initial_result "id" JNull ;;
       if negb (truthy task_id)
       then raise (RuntimeError [Lit "No task ID in response"])
       else
         final_result <- poll_status task_id api_key max_wait ;;
         video_url <- py_get final_result "video_url" (JStr "") ;;
         ret (video_url, task_id, first_frame))
      submit_except.

End Generator.

(** ** Observations on a journal *)

Definition is_get (ev : event) : bool :=
  match ev with
  | HttpGet _ _ => true
  | _ => false
  end.

Definition status_checks (j : list event) : nat := List.length (filter is_get j).

(** The text of an f-string whose fields are literals and ints; the
    formatting of the other fields is Python's. *)
Definition render_frag (f : frag) : option string :=
  match f with
  | Lit s => Some s
  | Num z => Some (NilZero.string_of_int (Z.to_int z))
  | _ => None
  end.

Fixpoint render (msg : list frag) : option string :=
  match msg with
  | [] => Some EmptyString
  | f :: rest =>
      match render_frag f, render rest with
      | Some a, Some b => Some (a ++ b)%string
      | _, _ => None
      end
  end.

(** ** A reference instance of the imaging interface

    It keeps the shape of the data and nothing of the pixels: a tensor is
    its shape, an image its mode and size, and a JPEG stream the start of
    image, a baseline frame header with the size, and the end of image. *)

Module Reference.

Record raster : Type := mkRaster {
  mode : string;
  width : Z;
  height : Z
}.

Definition from_shape (shape : list Z) : exn + raster :=
  let squeezed := match shape with 1 :: rest => rest | _ => shape end in
  match squeezed with
  | [h; w] => inr (mkRaster "L" w h)
  | [h; w; 3] => inr (mkRaster "RGB" w h)
  | [h; w; 4] => inr (mkRaster "RGBA" w h)
  | _ => inl (TypeError "Cannot handle this data type")
  end.

Definition resize (im : raster) (size : Z * Z) (f : resampling)
  : exn + raster :=
  if (0 <? fst size) && (0 <? snd size)
  then inr (mkRaster (mode im) (fst size) (snd size))
  else inl (ValueError "height and width must be > 0").

Definition byte_of_Z (z : Z) : byte := Base64.byte_of (Z.to_N z).

Definition save_jpeg (im : raster) (quality : Z) : exn + list byte :=
  if negb (String.eqb (mode im) "RGB" || String.eqb (mode im) "L")
  then inl (OSError "cannot write mode as JPEG")
  else if (0 <? width im) && (width im <? 65536)
          && (0 <? height im) && (height im <? 65536)
  then inr [xff; xd8; xff; xc0; x00; x0b; x08;
            byte_of_Z (height im / 256); byte_of_Z (height im mod 256);
            byte_of_Z (width im / 256); byte_of_Z (width im mod 256);
            x01; x01; x11; x00; xff; xd9]
  else inl (ValueError "Maximum supported image dimension is 65500 pixels").

Definition read_size (data : list byte) : option (Z * Z) :=
  match data with
  | xff :: xd8 :: xff :: xc0 :: _ :: _ :: _ :: hh :: hl :: wh :: wl :: _ =>
      Some (Z.of_N (Byte.to_N wh) * 256 + Z.of_N (Byte.to_N wl),
            Z.of_N (Byte.to_N hh) * 256 + Z.of_N (Byte.to_N hl))
  | _ => None
  end.

Definition imaging : Imaging.
Proof.
  refine {| tensor := list Z;
            image := raster;
            image_size := fun im => (width im, height im);
            tensor_to_image := from_shape;
            image_resize := resize;
            image_save_jpeg := save_jpeg;
            jpeg_size := read_size |}.
  - intros im s f im'. unfold resize.
    destruct ((0 <? fst s) && (0 <? snd s)); intro E; inversion E.
    destruct s; reflexivity.
  - assert (B : forall z, 0 <= z < 256 ->
                        Z.of_N (Byte.to_N (byte_of_Z z)) = z).
    { intros z Hz. unfold byte_of_Z, Base64.byte_of.
      destruct (Byte.of_N (Z.to_N z)) as [b|] eqn:E.
      - apply Byte.to_of_N in E. rewrite E. lia.
      - apply Byte.of_N_None_iff in E. lia. }
    intros im q data. unfold save_jpeg.
    destruct (negb _); [discriminate|].
    destruct (_ && _) eqn:R; [|discriminate].
    intro E. inversion E. subst data. clear E. cbn [read_size].
    apply andb_prop in R as [R R4]. apply andb_prop in R as [R R3].
    apply andb_prop in R as [R1 R2].
    apply Z.ltb_lt in R1, R2, R3, R4.
    rewrite (B (height im / 256)), (B (height im mod 256)),
            (B (width im / 256)), (B (width im mod 256))
      by (Z.to_euclidean_division_equations; lia).
    f_equal. f_equal; Z.to_euclidean_division_equations; lia.
Defined.

End Reference.

(** ** Scripted worlds, for running the nodes on concrete inputs *)

Definition ok_json (j : json) : response := mkResponse 200 "" [] (Some j).

Definition status_only (s : string) : json := JDict [("status", JStr s)].

Definition after (ms : N) (r : response) : reply := mkReply ms (inr r).

Definition refused (ms : N) (e : exn) : reply := mkReply ms (inl e).

(** The world at time [start] in which the HTTP calls are answered by
    [replies] in turn and by [fallback] from then on, and the disk works. *)
Definition scripted (start : Z) (replies : list reply) (fallback : reply)
  : world :=
  mkWorld start 0 [] (fun k => nth k replies fallback)
          (fun _ => None) (fun _ => None).

(** A reply after which polling goes on or returns: an exception that the
    handler can print, or a response that is an HTTP error or parses. *)
Definition printable (r : reply) : bool :=
  match answer r with
  | inl (RequestException _ None) => false
  | inl _ => true
  | inr resp =>
      if (400 <=? status_code resp) && (status_code resp <? 600) then true
      else match json_body resp with Some _ => true | None => false end
  end.

(** The task identifier that a submission response carries, if any. *)
Definition response_task_id (r : response) : option json :=
  match json_body r with
  | Some (JDict d) =>
      match dict_lookup "id" d with
      | Some v => if truthy v then Some v else None
      | None => None
      end
  | _ => None
  end.

Definition download_fails (w : world) (filename : string) : bool :=
  match answer (network w (served w)) with
  | inl _ => true
  | inr resp =>
      (400 <=? status_code resp) && (status_code resp <? 600)
      || match disk_open w (os_path_join "output" filename) with
         | Some _ => true
         | None =>
             match disk_write w (os_path_join "output" filename) with
             | Some _ => true
             | None => false
             end
         end
  end.

(** A reply that is a status response reporting FAILED or CANCELED. *)
Definition task_failure (r : reply) : bool :=
  match answer r with
  | inr resp =>
      negb ((400 <=? status_code resp) && (status_code resp <? 600))
      && match json_body resp with
         | Some (JDict d) =>
             match dict_lookup "status" d with
             | Some status =>
                 py_eq_str status "FAILED" || py_eq_str status "CANCELED"
             | None => false
             end
         | _ => false
         end
  | inl _ => false
  end.

(** A reply that is printable and reports no task failure; and whether the
    next [count] replies all are. *)
Definition quiet (r : reply) : bool := printable r && negb (task_failure r).

Definition quiet_replies (w : world) (count : nat) : bool :=
  forallb (fun k => quiet (network w k)) (seq (served w) count).

(** A reply that is a 2xx response whose JSON object has the given
    [status]. *)
Definition reports_status (r : reply) (status : string) : bool :=
  match answer r with
  | inr resp =>
      (200 <=? status_code resp) && (status_code resp <? 300)
      && match json_body resp with
         | Some (JDict d) =>
             match dict_lookup "status" d with
             | Some (JStr s) => String.eqb s status
             | _ => false
             end
         | _ => false
         end
  | inl _ => false
  end.

(** The JSON object of a reply and its [output] entry. *)
Definition reply_object (r : reply) : list (string * json) :=
  match answer r with
  | inr resp =>
      match json_body resp with
      | Some (JDict d) => d
      | _ => []
      end
  | inl _ => []
  end.

Definition reply_output (r : reply) : option json :=
  dict_lookup "output" (reply_object r).

(** The world after one more HTTP call, [extra] milliseconds of sleep and
    the events [evs]. *)
Definition after_call (w : world) (evs : list event) (extra : Z) : world :=
  mkWorld (now w + Z.of_N (latency (network w (served w))) + extra)
          (S (served w)) (journal w ++ evs)
          (network w) (disk_open w) (disk_write w).

(** The service reports FAILED on every status request. *)
Definition failed_world : world :=
  scripted 0 [] (after 0 (ok_json (status_only "FAILED"))).

(** The first status request takes a hundred seconds. *)
Definition slow_world : world :=
  scripted 0 [after 100000 (ok_json (status_only "RUNNING"))]
           (after 0 (ok_json (status_only "RUNNING"))).

(** The service reports RUNNING on every status request, at once. *)
Definition running_world : world :=
  scripted 0 [] (after 0 (ok_json (status_only "RUNNING"))).

(** The service reports RUNNING twice and then SUCCEEDED with one output,
    each time at once. *)
Definition succeeded_with (url : string) : json :=
  JDict [("status", JStr "SUCCEEDED"); ("output", JList [JStr url])].

Definition third_time_world : world :=
  scripted 0 [after 0 (ok_json (status_only "RUNNING"));
              after 0 (ok_json (status_only "RUNNING"));
              after 0 (ok_json (succeeded_with "https://x/video.mp4"))]
           (after 0 (ok_json (status_only "RUNNING"))).

(** A 512 x 512 RGB frame, as the host passes it (a batch of one). *)
Definition reference_frame : @frame Reference.imaging :=
  @TensorFrame Reference.imaging [1; 512; 512; 3].

(** The submission is answered 200 with an object that has no [id]. *)
Definition no_id_world : world :=
  scripted 0 [after 0 (ok_json (JDict [("status", JStr "PENDING")]))]
           (after 0 (ok_json (status_only "RUNNING"))).

(** The text of a successful encoding, empty otherwise. *)
Definition encoded_text {lib : Imaging} (img : frame) : string :=
  match encode_image img with
  | inr s => s
  | inl _ => EmptyString
  end.

(** ** What one status reply decides

    The reading of the loop body as a decision on the reply alone. *)

Definition http_error (resp : response) : bool :=
  (400 <=? status_code resp) && (status_code resp <? 600).

(** [v[0]] where [len(v) > 0] and the subscript does not raise. *)
Definition first_item (v : json) : option json :=
  match v with
  | JList (x :: _) => Some x
  | JStr (String c _) => Some (JStr (String c EmptyString))
  | _ => None
  end.

(** The result that a reply makes [poll_status] return, if it does. *)
Definition success_of (r : reply) : option json :=
  match answer r with
  | inl _ => None
  | inr resp =>
      if http_error resp then None
      else
        match json_body resp with
        | Some (JDict d) =>
            match dict_lookup "status" d with
            | Some status =>
                if py_eq_str status "SUCCEEDED" then
                  match dict_lookup "output" d with
                  | Some output =>
                      match first_item output with
                      | Some first =>
                          Some (JDict (dict_set "video_url" first d))
                      | None => None
                      end
                  | None => None
                  end
                else None
            | None => None
            end
        | _ => None
        end
  end.

(** The status request of a task. *)
Definition status_get (task_id : json) (api_key : string) : event :=
  HttpGet (tasks_url task_id) (poll_headers api_key).

(** [k] rounds of a request followed by the ten-second sleep. *)
Fixpoint rounds (ev : event) (k : nat) : list event :=
  match k with
  | O => []
  | S k' => ev :: Sleep 10 :: rounds ev k'
  end.

(** The latencies of [count] replies from the [from]-th on, summed. *)
Fixpoint latencies (net : nat -> reply) (from count : nat) : Z :=
  match count with
  | O => 0
  | S c => Z.of_N (latency (net from)) + latencies net (S from) c
  end.

(** The time of the loop test before the [i]-th status request of a run
    that starts in [w], when the requests before it were all retried. *)
Definition check_time (w : world) (i : nat) : Z :=
  now w + 10000 * Z.of_nat i + latencies (network w) (served w) i.

(** The [i]-th reply from [w] on. *)
Definition reply_at (w : world) (i : nat) : reply :=
  network w (served w + i).

(** What a run of the loop leaves behind, by the way it ends: [k] requests
    were retried before. *)
Definition ended_by_request (w w' : world) (get : event) (k : nat) : Prop :=
  served w' = (served w + S k)%nat
  /\ journal w' = journal w ++ rounds get k ++ [get]
  /\ now w' = check_time w k + Z.of_N (latency (reply_at w k)).

Definition ended_by_test (w w' : world) (get : event) (k : nat) : Prop :=
  served w' = (served w + k)%nat
  /\ journal w' = journal w ++ rounds get k
  /\ now w' = check_time w k.

(** ** INPUT_TYPES, as the host reads them *)

Inductive input_spec : Type :=
| ImageInput
| StringInput (default : string)
| IntInput (default min max : Z)
| ChoiceInput (options : list string) (default : string)
| BooleanInput (default : bool).

Definition generator_input_types : list (string * input_spec) :=
  [("first_frame", ImageInput);
   ("last_frame", ImageInput);
   ("promptText", StringInput "A cinematic scene");
   ("model", StringInput "gen3a_turbo");
   ("duration", IntInput 5 5 10);
   ("ratio", ChoiceInput ["1280:768"; "768:1280"] "1280:768");
   ("seed", IntInput 0 0 4294967295);
   ("watermark", BooleanInput false);
   ("api_key", StringInput "YOUR_RUNWAY_API_KEY");
   ("trigger", BooleanInput false);
   ("max_wait", IntInput 60 10 300)].

Definition preview_input_types : list (string * input_spec) :=
  [("video_url", StringInput "");
   ("download", BooleanInput false);
   ("filename", StringInput "runway_video.mp4")].

Fixpoint input_lookup (name : string) (types : list (string * input_spec))
  : option input_spec :=
  match types with
  | [] => None
  | (n, s) :: rest => if String.eqb name n then Some s else input_lookup name rest
  end.

(** Whether the host lets the int [v] through for the input [name]. *)
Definition admits_int (types : list (string * input_spec)) (name : string)
  (v : Z) : bool :=
  match input_lookup name types with
  | Some (IntInput _ lo hi) => (lo <=? v) && (v <=? hi)
  | _ => false
  end.

(** A reply that is a failure of the transport which the handler of the
    loop can print: an exception other than a [requests] exception without
    a response, or a response with a 4xx or 5xx status. *)
Definition transport_failure (r : reply) : bool :=
  match answer r with
  | inl (RequestException _ None) => false
  | inl _ => true
  | inr resp => http_error resp
  end.

(** The first item of the [output] of a reply, if that has one. *)
Definition reply_first_output (r : reply) : option json :=
  match reply_output r with
  | Some output => first_item output
  | None => None
  end.

(** A reply after which the loop sleeps and goes on. *)
Definition retried (r : reply) : bool :=
  match success_of r with
  | Some _ => false
  | None => printable r
  end.

(** The submission request of [generate_video], and the world after it. *)
Definition submit_post (api_key b64_first b64_last promptText model : string)
  (duration : Z) (ratio : string) (seed : Z) (watermark : bool) : event :=
  HttpPost submit_url (submit_headers api_key)
    (build_payload (data_uri b64_first) (data_uri b64_last)
       promptText model duration ratio seed watermark).

Definition after_submit (w : world) (post : event) : world :=
  mkWorld (now w + Z.of_N (latency (network w (served w))))
          (S (served w)) (journal w ++ [post])
          (network w) (disk_open w) (disk_write w).

(** What the failure [e] of the submission request leaves
    [generate_video] as. *)
Definition submission_error (e : exn) : exn :=
  match e with
  | RequestException _ (Some _) =>
      RuntimeError [Lit "Runway API error: "; StrOf e]
  | RequestException _ None => none_has_no_text
  | _ => e
  end.

(** The exception that the submission request fails with, if it does:
    the one [requests.post] raises, or the [HTTPError] of a 4xx or 5xx
    response. *)
Definition submission_failure (r : reply) : option exn :=
  match answer r with
  | inl e => Some e
  | inr resp =>
      if http_error resp
      then Some (RequestException "HTTPError" (Some resp))
      else None
  end.

(** The submission is accepted with the task id ["t-1"]; the task is
    RUNNING at the first status request and SUCCEEDED at the second. *)
Definition accepted_world : world :=
  scripted 0 [after 300 (ok_json (JDict [("id", JStr "t-1")]));
              after 200 (ok_json (status_only "RUNNING"));
              after 200 (ok_json (succeeded_with "https://x/video.mp4"))]
           (after 0 (ok_json (status_only "RUNNING"))).

(** The submission is answered 401. *)
Definition unauthorized : response :=
  mkResponse 401 "unauthorized" [] None.

(** The value that a run returned, for reading a concrete run. *)
Definition returned (r : result json) : json :=
  match r with
  | Ok v => v
  | _ => JNull
  end.

(** The first status reply reports SUCCEEDED with an empty output. *)
Definition empty_output_world : world :=
  scripted 0 [after 0 (ok_json (JDict [("status", JStr "SUCCEEDED");
                                       ("output", JList [])]))]
           (after 0 (ok_json (status_only "RUNNING"))).

(** The first request is answered 503. *)
Definition unavailable_world : world :=
  scripted 0 [after 0 (mkResponse 503 "unavailable" [] None)]
           (after 0 (ok_json (status_only "RUNNING"))).

(** The first request cannot connect. *)
Definition offline_world : world :=
  scripted 0 [refused 0 (RequestException "ConnectionError" None)]
           (after 0 (ok_json (status_only "RUNNING"))).

(** The first request is answered 401. *)
Definition unauthorized_world : world :=
  scripted 0 [after 0 unauthorized]
           (after 0 (ok_json (status_only "RUNNING"))).

(** The first request is answered 200 with two bytes of content. *)
Definition download_world : world :=
  scripted 0 [after 0 (mkResponse 200 "" [x00; x01] None)]
           (after 0 (ok_json (status_only "RUNNING"))).

(** A frame with an alpha channel, which does not save as JPEG. *)
Definition rgba_frame : @frame Reference.imaging :=
  @TensorFrame Reference.imaging [1; 64; 64; 4].

(** The node run on the reference frame with the defaults of INPUT_TYPES
    and [trigger] set. *)
Definition reference_run (w : world) : result (json * json * frame) * world :=
  generate_video reference_frame reference_frame "A cinematic scene"
                 "gen3a_turbo" 5 "1280:768" 0 false "key" true 60 w.

Definition reference_post : event :=
  submit_post "key" (encoded_text reference_frame)
              (encoded_text reference_frame) "A cinematic scene"
              "gen3a_turbo" 5 "1280:768" 0 false.

(** * Properties *)

Ltac break_match :=
  match goal with
  | |- context [match ?x with _ => _ end] =>
      lazymatch x with
      | context [match _ with _ => _ end] => fail
      | _ => destruct x eqn:?
      end
  end.

Ltac invert_pairs :=
  repeat match goal with
         | H : (_, _) = (_, _) |- _ => inversion H; subst; clear H
         end.

(** ** base64: decoding undoes encoding *)

Module Base64Facts.
Import Base64.
Local Open Scope N_scope.

Lemma sextet_in (n : N) : n < 64 -> In n sextets.
Proof.
  intro H. unfold sextets. apply in_map_iff. exists (N.to_nat n).
  split; [apply N2Nat.id|]. apply in_seq. lia.
Qed.

Lemma index_digit (n : N) : n < 64 -> index (digit n) = Some n.
Proof.
  intro H. apply sextet_in in H.
  assert (A : forallb (fun k => match index (digit k) with
                                | Some m => N.eqb m k
                                | None => false
                                end) sextets = true) by (vm_compute; reflexivity).
  rewrite forallb_forall in A. apply A in H.
  destruct (index (digit n)) as [m|]; [|discriminate].
  apply N.eqb_eq in H. congruence.
Qed.

Lemma digit_not_pad (n : N) : n < 64 -> Ascii.eqb (digit n) pad = false.
Proof.
  intro H. apply sextet_in in H.
  assert (A : forallb (fun k => negb (Ascii.eqb (digit k) pad)) sextets = true)
    by (vm_compute; reflexivity).
  rewrite forallb_forall in A. apply A in H.
  apply negb_true_iff in H. exact H.
Qed.

Lemma byte_of_to_N (b : byte) : byte_of (Byte.to_N b) = b.
Proof. unfold byte_of. rewrite Byte.of_to_N. reflexivity. Qed.

Ltac arith := zify; Z.to_euclidean_division_equations; lia.

Lemma decode_one (a : byte) :
  b64decode (b64encode [a]) = Some [a].
Proof.
  pose proof (Byte.to_N_bounded a) as Ha.
  cbn [b64encode]. cbv zeta. set (n := Byte.to_N a * 16).
  assert (n / 64 < 64) by (subst n; arith).
  assert (n mod 64 < 64) by (subst n; arith).
  cbn [b64decode]. rewrite !index_digit by assumption.
  cbn. replace ((n / 64 * 64 + n mod 64) / 16) with (Byte.to_N a)
    by (subst n; arith).
  rewrite byte_of_to_N. reflexivity.
Qed.

Lemma decode_two (a b : byte) :
  b64decode (b64encode [a; b]) = Some [a; b].
Proof.
  pose proof (Byte.to_N_bounded a) as Ha.
  pose proof (Byte.to_N_bounded b) as Hb.
  cbn [b64encode]. cbv zeta.
  set (n := (Byte.to_N a * 256 + Byte.to_N b) * 4).
  assert (n / 4096 < 64) by (subst n; arith).
  assert (n / 64 mod 64 < 64) by (subst n; arith).
  assert (n mod 64 < 64) by (subst n; arith).
  cbn [b64decode]. rewrite !index_digit by assumption.
  rewrite (digit_not_pad (n mod 64)) by assumption.
  cbn [Ascii.eqb Bool.eqb pad String.eqb].
  replace (((n / 4096 * 64 + n / 64 mod 64) * 64 + n mod 64) / 4)
    with (Byte.to_N a * 256 + Byte.to_N b) by (subst n; arith).
  replace ((Byte.to_N a * 256 + Byte.to_N b) / 256) with (Byte.to_N a)
    by arith.
  replace ((Byte.to_N a * 256 + Byte.to_N b) mod 256) with (Byte.to_N b)
    by arith.
  rewrite !byte_of_to_N. reflexivity.
Qed.

Lemma decode_three (a b c : byte) (rest : list byte) :
  b64decode (b64encode rest) = Some rest ->
  b64decode (b64encode (a :: b :: c :: rest)) = Some (a :: b :: c :: rest).
Proof.
  intro IH.
  pose proof (Byte.to_N_bounded a) as Ha.
  pose proof (Byte.to_N_bounded b) as Hb.
  pose proof (Byte.to_N_bounded c) as Hc.
  cbn [b64encode]. cbv zeta.
  set (n := Byte.to_N a * 65536 + Byte.to_N b * 256 + Byte.to_N c).
  assert (n / 262144 < 64) by (subst n; arith).
  assert (n / 4096 mod 64 < 64) by (subst n; arith).
  assert (n / 64 mod 64 < 64) by (subst n; arith).
  assert (n mod 64 < 64) by (subst n; arith).
  cbn [b64decode]. rewrite !index_digit by assumption.
  rewrite (digit_not_pad (n / 64 mod 64)), (digit_not_pad (n mod 64))
    by assumption.
  rewrite IH.
  replace (((n / 262144 * 64 + n / 4096 mod 64) * 64 + n / 64 mod 64) * 64
           + n mod 64) with n by arith.
  replace (n / 65536) with (Byte.to_N a) by (subst n; arith).
  replace (n / 256 mod 256) with (Byte.to_N b) by (subst n; arith).
  replace (n mod 256) with (Byte.to_N c) by (subst n; arith).
  rewrite !byte_of_to_N. reflexivity.
Qed.

(** Induction three bytes at a time, as the encoder recurses. *)
Lemma by_triples (P : list byte -> Prop) :
  P [] -> (forall a, P [a]) -> (forall a b, P [a; b]) ->
  (forall a b c rest, P rest -> P (a :: b :: c :: rest)) ->
  forall bs, P bs.
Proof.
  intros H0 H1 H2 H3.
  assert (A : forall bs, P bs /\ (forall a, P (a :: bs))
                         /\ (forall a b, P (a :: b :: bs))).
  { induction bs as [|c bs [IH0 [IH1 IH2]]].
    - repeat split; auto.
    - repeat split; auto. }
  intro bs. apply A.
Qed.

Theorem b64decode_b64encode (bs : list byte) :
  b64decode (b64encode bs) = Some bs.
Proof.
  induction bs as [|a|a b|a b c rest IH] using by_triples.
  - reflexivity.
  - apply decode_one.
  - apply decode_two.
  - apply decode_three. exact IH.
Qed.

Lemma b64_ascii_digit (n : N) : n < 64 -> b64_ascii (digit n) = true.
Proof.
  intro H. unfold b64_ascii. rewrite index_digit by assumption. reflexivity.
Qed.

Lemma b64encode_chars (bs : list byte) :
  all_chars b64_ascii (b64encode bs) = true.
Proof.
  induction bs as [|a|a b|a b c rest IH] using by_triples.
  - reflexivity.
  - pose proof (Byte.to_N_bounded a).
    cbn [b64encode all_chars]. cbv zeta.
    rewrite !b64_ascii_digit by arith. reflexivity.
  - pose proof (Byte.to_N_bounded a). pose proof (Byte.to_N_bounded b).
    cbn [b64encode all_chars]. cbv zeta.
    rewrite !b64_ascii_digit by arith. reflexivity.
  - pose proof (Byte.to_N_bounded a). pose proof (Byte.to_N_bounded b).
    pose proof (Byte.to_N_bounded c).
    cbn [b64encode all_chars]. cbv zeta.
    rewrite !b64_ascii_digit by arith. rewrite IH. reflexivity.
Qed.

(** Text made of base64 characters does not start with a data URI scheme:
    the colon is not one of them. *)
Lemma b64_text_no_scheme (s : string) :
  all_chars b64_ascii s = true ->
  String.prefix "data:image/jpeg;base64," s = false.
Proof.
  intro H.
  destruct s as [|c0 [|c1 [|c2 [|c3 [|c4 s]]]]]; try reflexivity;
    cbn [String.prefix];
    repeat (destruct (ascii_dec _ _) as [<-|]; try reflexivity).
  exfalso. cbn in H. discriminate H.
Qed.

End Base64Facts.

(** ** One iteration of the polling loop

    Whatever the service answers, an iteration makes exactly one status
    request.  It returns a result, or ends after its ten-second sleep, or
    (only on a reply the handler cannot print) lets the handler's own
    [AttributeError] escape. *)
Lemma poll_iteration_spec (task_id : json) (headers : list (string * string))
  (w : world) :
  let r := network w (served w) in
  let res := poll_iteration task_id headers w in
  network (snd res) = network w /\ served (snd res) = S (served w) /\
  match fst res with
  | Ok (Some _) =>
      now (snd res) = now w + Z.of_N (latency r)
      /\ journal (snd res) = journal w ++ [HttpGet (tasks_url task_id) headers]
  | Ok None =>
      now (snd res) = now w + Z.of_N (latency r) + 10000
      /\ journal (snd res)
         = journal w ++ [HttpGet (tasks_url task_id) headers; Sleep 10]
  | Raise e =>
      printable r = false
      /\ e = none_has_no_text
      /\ now (snd res) = now w + Z.of_N (latency r)
      /\ journal (snd res) = journal w ++ [HttpGet (tasks_url task_id) headers]
  | Starved => False
  end.
Proof.
  cbv zeta.
  unfold poll_iteration, try_except, poll_try, poll_except, bind,
    requests_get, http_call, raise_for_status, response_json, py_get,
    py_len, py_first, exn_response_text, time_sleep, printable,
    any_Exception, ret, raise, advance, record_event.
  repeat (break_match; cbn -[Z.add Z.mul]; try discriminate; invert_pairs).
  all: cbn.
  all: try (repeat split; try reflexivity; try lia;
            rewrite <- ?app_assoc; reflexivity).
Qed.

Lemma status_checks_app (j1 j2 : list event) :
  status_checks (j1 ++ j2) = (status_checks j1 + status_checks j2)%nat.
Proof.
  unfold status_checks. rewrite filter_app, length_app. reflexivity.
Qed.

(** ** The polling loop *)

Lemma poll_loop_unfold fuel task_id headers max_wait end_time attempts w :
  poll_loop (S fuel) task_id headers max_wait end_time attempts w
  = if now w <? end_time then
      match poll_iteration task_id headers w with
      | (Ok (Some result), w1) => (Ok result, w1)
      | (Ok None, w1) =>
          poll_loop fuel task_id headers max_wait end_time (attempts + 1) w1
      | (Raise e, w1) => (Raise e, w1)
      | (Starved, w1) => (Starved, w1)
      end
    else (Raise (timeout_error max_wait attempts), w).
Proof.
  cbn [poll_loop]. unfold bind at 1, time_time at 1.
  destruct (now w <? end_time); [|reflexivity].
  unfold bind, poll_iteration.
  destruct (try_except _ _ _ w) as [[[r|]|e|] w1]; reflexivity.
Qed.

(** With fuel for the deadline, the loop returns a result or raises; what
    it raises is the timeout error, which counts the status requests made,
    or the [AttributeError] of the handler on a reply it cannot print.  It
    never raises the task error and never starves. *)
Lemma poll_loop_spec (task_id : json) (headers : list (string * string))
  (max_wait end_time : Z) :
  forall (f : nat) (attempts : Z) (w : world) (r : result json) (w' : world),
    end_time - now w <= 10000 * Z.of_nat f ->
    poll_loop (S f) task_id headers max_wait end_time attempts w = (r, w') ->
    network w' = network w /\
    match r with
    | Ok _ => (served w < served w')%nat
    | Raise e =>
        (e = none_has_no_text
         /\ exists k, (served w <= k < served w + f)%nat
                      /\ printable (network w k) = false)
        \/ exists n : nat,
            e = timeout_error max_wait (attempts + Z.of_nat n)
            /\ served w' = (served w + n)%nat
            /\ status_checks (journal w')
               = (status_checks (journal w) + n)%nat
            /\ end_time <= now w'
            /\ (n = 0%nat -> w' = w)
            /\ (n <> 0%nat ->
                now w'
                < end_time + 10000
                  + Z.of_N (latency (network w (pred (served w')))))
    | Starved => False
    end.
Proof.
  induction f as [|f IH]; intros attempts w r w' Hfuel Hrun;
    rewrite poll_loop_unfold in Hrun.
  - (* the deadline has passed *)
    assert (E : (now w <? end_time) = false) by (apply Z.ltb_ge; lia).
    rewrite E in Hrun. inversion Hrun; subst. split; [reflexivity|].
    right. exists 0%nat. rewrite Z.add_0_r, !Nat.add_0_r.
    apply Z.ltb_ge in E. repeat split; try reflexivity; try lia.
  - destruct (now w <? end_time) eqn:E.
    + apply Z.ltb_lt in E.
      pose proof (poll_iteration_spec task_id headers w) as S1.
      cbv zeta in S1.
      destruct (poll_iteration task_id headers w) as [r1 w1].
      cbn [fst snd] in S1. destruct S1 as (Hnet & Hserved & S1).
      destruct r1 as [[result|]|e|].
      * inversion Hrun; subst. split; [exact Hnet|]. lia.
      * destruct S1 as (Hnow & Hj).
        apply IH in Hrun; [|lia].
        destruct Hrun as (Hnet' & Hrun).
        split; [congruence|].
        destruct r as [x|e|].
        -- lia.
        -- destruct Hrun as [[He [k [Hr Hk]]]
                            |[n (He & Hs & Hc & Hend & H0 & Hn)]].
           ++ left. split; [exact He|]. exists k.
              split; [lia|]. rewrite <- Hnet. exact Hk.
           ++ right. exists (S n). rewrite Nat2Z.inj_succ.
              replace (attempts + Z.succ (Z.of_nat n))
                with (attempts + 1 + Z.of_nat n) by lia.
              split; [exact He|].
              split; [lia|].
              split; [rewrite Hc, Hj, status_checks_app; cbn; lia|].
              split; [exact Hend|].
              split; [discriminate|]. intros _.
              destruct n as [|n].
              ** rewrite (H0 eq_refl). rewrite Hserved. cbn [pred]. lia.
              ** rewrite <- Hnet. apply Hn. discriminate.
        -- exact Hrun.
      * destruct S1 as (Hp & He & Hnow & Hj). inversion Hrun; subst.
        split; [exact Hnet|].
        left. split; [reflexivity|]. exists (served w).
        split; [lia|]. exact Hp.
      * contradiction.
    + inversion Hrun; subst. split; [reflexivity|].
      right. exists 0%nat. rewrite Z.add_0_r, !Nat.add_0_r.
      apply Z.ltb_ge in E.
      repeat split; try reflexivity; try lia.
Qed.

Lemma poll_fuel_enough (max_wait : Z) :
  max_wait * 1000 <= 10000 * Z.of_nat (S (Z.to_nat (max_wait / 10))).
Proof.
  rewrite Nat2Z.inj_succ.
  destruct (Z.le_gt_cases 0 max_wait) as [H|H].
  - rewrite Z2Nat.id by (apply Z.div_pos; lia).
    Z.to_euclidean_division_equations; lia.
  - lia.
Qed.

Lemma poll_status_spec (task_id : json) (api_key : string) (max_wait : Z)
  (w : world) (r : result json) (w' : world) :
  poll_status task_id api_key max_wait w = (r, w') ->
  network w' = network w /\
  match r with
  | Ok _ => (served w < served w')%nat
  | Raise e =>
      (e = none_has_no_text
       /\ exists k, (served w <= k < served w + pred (poll_fuel max_wait))%nat
                    /\ printable (network w k) = false)
      \/ exists n : nat,
          e = timeout_error max_wait (Z.of_nat n)
          /\ served w' = (served w + n)%nat
          /\ status_checks (journal w') = (status_checks (journal w) + n)%nat
          /\ now w + max_wait * 1000 <= now w'
          /\ (n = 0%nat -> w' = w)
          /\ (n <> 0%nat ->
              now w'
              < now w + max_wait * 1000 + 10000
                + Z.of_N (latency (network w (pred (served w')))))
  | Starved => False
  end.
Proof.
  unfold poll_status, bind at 1, time_time at 1, poll_fuel. intro Hrun.
  apply poll_loop_spec in Hrun.
  - exact Hrun.
  - pose proof (poll_fuel_enough max_wait). lia.
Qed.

(** ** Iterations on a known reply *)

Lemma reports_status_inv (r : reply) (status : string) :
  reports_status r status = true ->
  exists resp,
    answer r = inr resp
    /\ (400 <=? status_code resp) && (status_code resp <? 600) = false
    /\ json_body resp = Some (JDict (reply_object r))
    /\ dict_lookup "status" (reply_object r) = Some (JStr status).
Proof.
  unfold reports_status, reply_object.
  destruct (answer r) as [e|resp]; [discriminate|].
  intro H. apply andb_prop in H as [Hc H].
  apply andb_prop in Hc as [H200 H300].
  destruct (json_body resp) as [[| | | | | |d]|] eqn:Hj; try discriminate.
  destruct (dict_lookup "status" d) as [[| | | |s| |]|] eqn:Hs;
    try discriminate.
  apply String.eqb_eq in H. subst s.
  exists resp. split; [reflexivity|]. split; [|split; [exact Hj|reflexivity]].
  apply andb_false_iff. left. apply Z.leb_gt. apply Z.ltb_lt in H300. lia.
Qed.

Lemma poll_iteration_running task_id headers w :
  reports_status (network w (served w)) "RUNNING" = true ->
  poll_iteration task_id headers w
  = (Ok None,
     after_call w [HttpGet (tasks_url task_id) headers; Sleep 10] 10000).
Proof.
  intro H. apply reports_status_inv in H.
  destruct H as (resp & Ha & Hc & Hj & Hs).
  unfold poll_iteration, try_except, poll_try, bind, requests_get, http_call,
    raise_for_status, response_json, py_get.
  rewrite Ha, Hc. cbn -[Z.add Z.mul]. rewrite Hj. cbn -[Z.add Z.mul].
  rewrite Hs. cbn -[Z.add Z.mul].
  unfold after_call, advance, record_event. cbn -[Z.add Z.mul].
  rewrite <- app_assoc. reflexivity.
Qed.

Lemma poll_iteration_succeeded task_id headers w first rest :
  reports_status (network w (served w)) "SUCCEEDED" = true ->
  reply_output (network w (served w)) = Some (JList (first :: rest)) ->
  poll_iteration task_id headers w
  = (Ok (Some (JDict (dict_set "video_url" first
                        (reply_object (network w (served w)))))),
     after_call w [HttpGet (tasks_url task_id) headers] 0).
Proof.
  intros H Ho. apply reports_status_inv in H.
  destruct H as (resp & Ha & Hc & Hj & Hs). unfold reply_output in Ho.
  unfold poll_iteration, try_except, poll_try, bind, requests_get, http_call,
    raise_for_status, response_json, py_get.
  rewrite Ha, Hc. cbn -[Z.add Z.mul]. rewrite Hj. cbn -[Z.add Z.mul].
  rewrite Hs. cbn -[Z.add Z.mul]. rewrite Ho. cbn -[Z.add Z.mul].
  unfold after_call. rewrite Z.add_0_r. reflexivity.
Qed.

Lemma dict_lookup_set (k : string) (v : json) (d : list (string * json)) :
  dict_lookup k (dict_set k v d) = Some v.
Proof.
  induction d as [|[k' v'] d IH]; cbn.
  - rewrite String.eqb_refl. reflexivity.
  - destruct (String.eqb k k') eqn:E; cbn; rewrite E; [reflexivity|exact IH].
Qed.

(** ** The journal only grows *)

Lemma poll_loop_journal (task_id : json) (headers : list (string * string))
  (max_wait end_time : Z) :
  forall (fuel : nat) (attempts : Z) (w : world),
  exists tail,
    journal (snd (poll_loop fuel task_id headers max_wait end_time attempts w))
    = journal w ++ tail.
Proof.
  induction fuel as [|fuel IH]; intros attempts w.
  - exists []. cbn. rewrite app_nil_r. reflexivity.
  - rewrite poll_loop_unfold.
    destruct (now w <? end_time); [|exists []; cbn; rewrite app_nil_r; reflexivity].
    pose proof (poll_iteration_spec task_id headers w) as S1. cbv zeta in S1.
    destruct (poll_iteration task_id headers w) as [r1 w1].
    cbn [fst snd] in S1. destruct S1 as (_ & _ & S1).
    destruct r1 as [[result|]|e|]; cbn [snd].
    + destruct S1 as [_ Hj]. eexists. exact Hj.
    + destruct S1 as [_ Hj]. destruct (IH (attempts + 1) w1) as [tail Ht].
      rewrite Ht, Hj, <- app_assoc. eexists. reflexivity.
    + destruct S1 as (_ & _ & _ & Hj). eexists. exact Hj.
    + contradiction.
Qed.

Lemma poll_status_journal (task_id : json) (api_key : string) (max_wait : Z)
  (w : world) :
  exists tail,
    journal (snd (poll_status task_id api_key max_wait w)) = journal w ++ tail.
Proof.
  unfold poll_status, bind at 1, time_time at 1. apply poll_loop_journal.
Qed.

Lemma submit_except_world {A} (e : exn) (w : world) :
  snd (@submit_except A e w) = w.
Proof.
  unfold submit_except, bind, exn_response_text, ret, raise.
  destruct e as [| cls [r|] | | | | | |]; reflexivity.
Qed.

Lemma generate_video_posts_data_uris :
  forall (lib : Imaging) (first_frame last_frame : frame)
         (promptText model : string) (duration : Z) (ratio : string)
         (seed : Z) (watermark : bool) (api_key : string) (max_wait : Z)
         (w : world) (b64_first b64_last : string),
    encode_image first_frame = inr b64_first ->
    encode_image last_frame = inr b64_last ->
    exists tail,
      journal (snd (generate_video first_frame last_frame promptText model
                      duration ratio seed watermark api_key true max_wait w))
      = journal w
        ++ HttpPost submit_url (submit_headers api_key)
             (build_payload (data_uri b64_first) (data_uri b64_last)
                promptText model duration ratio seed watermark)
        :: tail.
Proof.
  intros lib first_frame last_frame promptText model duration ratio seed
    watermark api_key max_wait w b64_first b64_last Hfirst Hlast.
  unfold generate_video. cbn [negb]. rewrite Hfirst, Hlast.
  unfold lift, bind at 1, ret at 1, bind at 1, ret at 1.
  unfold try_except, bind at 1, requests_post, http_call. cbv zeta.
  set (post := HttpPost _ _ _).
  set (w1 := mkWorld _ _ _ _ _ _).
  assert (J : journal w1 = journal w ++ [post]) by reflexivity.
  assert (F : forall (w2 : world) tail,
             journal w2 = journal w1 ++ tail ->
             exists tail', journal w2 = journal w ++ post :: tail').
  { intros w2 tail H. exists tail. rewrite H, J, <- app_assoc. reflexivity. }
  assert (F0 : exists tail', journal w1 = journal w ++ post :: tail').
  { apply (F w1 []). rewrite app_nil_r. reflexivity. }
  clearbody w1 post.
  destruct (answer (network w (served w))) as [e|resp].
  - cbv beta iota. destruct (is_RequestException e);
      [rewrite submit_except_world|cbn [snd]]; exact F0.
  - unfold bind at 1, raise_for_status.
    destruct ((400 <=? status_code resp) && (status_code resp <? 600)).
    { unfold raise at 1. cbv beta iota. cbn [is_RequestException].
      rewrite submit_except_world. exact F0. }
    unfold ret at 1, bind at 1, response_json.
    destruct (json_body resp) as [body|].
    2:{ unfold raise at 1. cbv beta iota. cbn [is_RequestException].
        rewrite submit_except_world. exact F0. }
    unfold ret at 1, bind at 1, py_get at 1.
    destruct body as [| | | | | |d];
      try (unfold raise at 1; cbv beta iota; cbn [is_RequestException snd];
           exact F0).
    set (task_id := match dict_lookup "id" d with Some v => v | None => JNull end).
    assert (T : (match dict_lookup "id" d with
                 | Some v => ret v
                 | None => ret JNull
                 end) w1 = (Ok task_id, w1))
      by (subst task_id; destruct (dict_lookup "id" d); reflexivity).
    rewrite T. clear T.
    destruct (truthy task_id); cbn [negb].
    2:{ unfold raise at 1. cbv beta iota. cbn [is_RequestException snd].
        exact F0. }
    unfold bind at 1.
    destruct (poll_status_journal task_id api_key max_wait w1) as [tail Ht].
    destruct (poll_status task_id api_key max_wait w1) as [r w2].
    cbn [snd] in Ht. apply F in Ht.
    destruct r as [final|e|].
    + unfold bind at 1, py_get.
      destruct final as [| | | | | |fd];
        try (unfold raise at 1; cbv beta iota; cbn [is_RequestException snd];
             exact Ht).
      destruct (dict_lookup "video_url" fd); cbn; exact Ht.
    + cbv beta iota. destruct (is_RequestException e);
        [rewrite submit_except_world|cbn [snd]]; exact Ht.
    + exact Ht.
Qed.

(** ** The skip branch and the preview node *)

(** C2: with [trigger] false, [generate_video] returns at once
    [("", "", first_frame)] and leaves the world as it was: no call is
    made, nothing is journalled, the clock does not move. *)
Theorem generate_video_skip :
  forall (lib : Imaging) (first_frame last_frame : frame)
         (promptText model : string) (duration : Z) (ratio : string)
         (seed : Z) (watermark : bool) (api_key : string) (max_wait : Z)
         (w : world),
    generate_video first_frame last_frame promptText model duration ratio
                   seed watermark api_key false max_wait w
    = (Ok (JStr "", JStr "", first_frame), w).
Proof.
  intros. reflexivity.
Qed.

(** C5: with [download] false, [preview_video] hands back the URL it was
    given, makes no HTTP call and leaves the world untouched. *)
Theorem preview_video_no_download :
  forall (video_url filename : string) (w : world),
  exists r,
    preview_video video_url false filename w = (Ok r, w)
    /\ ret_payload r = video_url
    /\ r = (if String.eqb video_url "" then Bare "" else Tuple1 video_url).
Proof.
  intros video_url filename w. unfold preview_video.
  destruct (String.eqb video_url "") eqn:E.
  - apply String.eqb_eq in E. subst. exists (Bare ""). repeat split.
  - exists (Tuple1 video_url). repeat split.
Qed.

(** C9: for an empty [video_url], whatever [download] and [filename] are,
    [preview_video] returns the bare string [""] and touches nothing, so
    nothing is downloaded; for a non-empty URL every return path yields a
    1-tuple. *)
Theorem preview_video_empty_url_bare :
  (forall (download : bool) (filename : string) (w : world),
      preview_video "" download filename w = (Ok (Bare ""), w))
  /\ (forall (c : ascii) (rest : string) (download : bool)
             (filename : string) (w : world),
         exists s, fst (preview_video (String c rest) download filename w)
                   = Ok (Tuple1 s)).
Proof.
  split.
  - reflexivity.
  - intros c rest download filename w. unfold preview_video.
    cbn [String.eqb]. destruct download.
    + unfold try_except, bind, requests_get, http_call, raise_for_status,
        file_open, file_write, ret, raise, any_Exception.
      destruct (answer _) as [e|resp]; [eexists; reflexivity|].
      destruct (_ && _); [eexists; reflexivity|].
      destruct (disk_open _ _); [eexists; reflexivity|].
      cbn. destruct (disk_write _ _); eexists; reflexivity.
    + eexists; reflexivity.
Qed.

(** C6: for a non-empty URL and [download] true, when the GET raises,
    answers with an HTTP error status, or the file cannot be opened or
    written, [preview_video] returns the 1-tuple of the URL it was given;
    the exception is caught and does not leave the function. *)
Theorem preview_video_download_failure :
  forall (c : ascii) (rest filename : string) (w : world),
    download_fails w filename = true ->
    fst (preview_video (String c rest) true filename w)
    = Ok (Tuple1 (String c rest)).
Proof.
  intros c rest filename w. unfold download_fails, preview_video.
  cbn [String.eqb].
  unfold try_except, bind, requests_get, http_call, raise_for_status,
    file_open, file_write, ret, raise, any_Exception.
  destruct (answer _) as [e|resp]; [reflexivity|].
  destruct (_ && _); [reflexivity|].
  cbn. destruct (disk_open _ _); [reflexivity|].
  cbn. destruct (disk_write _ _); [reflexivity|discriminate].
Qed.

Lemma preview_video_download_failure_witness :
  fst (preview_video "https://x/video.mp4" true "runway_video.mp4"
         (scripted 0 [refused 250 (RequestException "ConnectionError" None)]
                   (after 0 (ok_json JNull))))
  = Ok (Tuple1 "https://x/video.mp4").
Proof.
  apply (preview_video_download_failure "h" "ttps://x/video.mp4").
  reflexivity.
Defined.

(** ** Polling *)

(** C10: with [max_wait] zero or negative the loop test fails at once:
    [poll_status] raises the timeout error with zero attempts and the world
    is as before, so no status request was made. *)
Theorem poll_status_nonpositive_wait :
  forall (task_id : json) (api_key : string) (max_wait : Z) (w : world),
    max_wait <= 0 ->
    poll_status task_id api_key max_wait w
    = (Raise (timeout_error max_wait 0), w).
Proof.
  intros task_id api_key max_wait w H.
  unfold poll_status, poll_fuel, bind, time_time. cbn [poll_loop].
  unfold bind, time_time.
  replace (now w <? now w + max_wait * 1000) with false
    by (symmetry; apply Z.ltb_ge; lia).
  reflexivity.
Qed.

Lemma poll_status_nonpositive_wait_witness :
  poll_status (JStr "task") "key" 0
              (scripted 5000 [] (after 0 (ok_json (status_only "RUNNING"))))
  = (Raise (timeout_error 0 0),
     scripted 5000 [] (after 0 (ok_json (status_only "RUNNING"))))
  /\ render [Lit "Timeout after "; Num 0; Lit "s and "; Num 0;
             Lit " polling attempts"]
     = Some "Timeout after 0s and 0 polling attempts".
Proof.
  split.
  - apply (poll_status_nonpositive_wait (JStr "task") "key" 0). lia.
  - reflexivity.
Defined.

(** C1 (the code retries the failure): [poll_status] never raises the
    "Task failed" error, because the [raise] sits inside the [try] whose
    handler catches every [Exception]; on a service that reports FAILED at
    once and every time, with [max_wait] 60, it makes six status requests,
    ten seconds apart, and ends with the timeout error. *)
Theorem poll_status_failed_is_retried :
  (forall task_id api_key max_wait w result,
      fst (poll_status task_id api_key max_wait w)
      <> Raise (RuntimeError [Lit "Task failed: "; Dumps result]))
  /\ (let res := poll_status (JStr "task") "key" 60 failed_world in
      fst res = Raise (timeout_error 60 6)
      /\ render [Lit "Timeout after "; Num 60; Lit "s and "; Num 6;
                 Lit " polling attempts"]
         = Some "Timeout after 60s and 6 polling attempts"
      /\ status_checks (journal (snd res)) = 6%nat
      /\ now (snd res) = 60000).
Proof.
  split.
  - intros task_id api_key max_wait w result H.
    destruct (poll_status task_id api_key max_wait w) as [r w'] eqn:R.
    apply poll_status_spec in R. cbn [fst] in H. subst r.
    destruct R as [_ [[R _]|[n [R _]]]]; discriminate R.
  - vm_compute. repeat split.
Qed.

(** C8, as the code has it: a run in which every reply is printable and
    reports no task failure, and that returns no result, raises the timeout
    error, whose count is the number of status requests made; it ends at or
    after the deadline and, if a request was made, less than ten seconds
    plus the latency of the last request after it. *)
Theorem poll_status_timeout :
  forall task_id api_key max_wait w r w',
    quiet_replies w (poll_fuel max_wait) = true ->
    poll_status task_id api_key max_wait w = (r, w') ->
    (forall result, r <> Ok result) ->
    exists n : nat,
      r = Raise (timeout_error max_wait (Z.of_nat n))
      /\ status_checks (journal w') = (status_checks (journal w) + n)%nat
      /\ now w + max_wait * 1000 <= now w'
      /\ (n = 0%nat -> w' = w)
      /\ (n <> 0%nat ->
          now w'
          < now w + max_wait * 1000 + 10000
            + Z.of_N (latency (network w (pred (served w'))))).
Proof.
  intros task_id api_key max_wait w r w' Hp Hrun Hno.
  apply poll_status_spec in Hrun. destruct Hrun as [_ Hrun].
  destruct r as [x|e|]; [exfalso; exact (Hno x eq_refl)| |contradiction].
  destruct Hrun as [[_ [k [Hk Hbad]]]|[n (He & Hs & Hc & Hend & H0 & Hn)]].
  - exfalso. unfold quiet_replies in Hp.
    rewrite forallb_forall in Hp.
    assert (Hin : In k (seq (served w) (poll_fuel max_wait))).
    { apply in_seq. unfold poll_fuel in *. cbn [pred] in Hk. lia. }
    apply Hp in Hin. unfold quiet in Hin.
    apply andb_prop in Hin as [Hin _]. congruence.
  - exists n. subst e. repeat split; assumption.
Qed.

Lemma poll_status_timeout_witness :
  exists n : nat,
    fst (poll_status (JStr "task") "key" 10 running_world)
    = Raise (timeout_error 10 (Z.of_nat n))
    /\ status_checks
         (journal (snd (poll_status (JStr "task") "key" 10 running_world)))
       = (status_checks (journal running_world) + n)%nat
    /\ now running_world + 10 * 1000
       <= now (snd (poll_status (JStr "task") "key" 10 running_world))
    /\ (n = 0%nat ->
        snd (poll_status (JStr "task") "key" 10 running_world)
        = running_world)
    /\ (n <> 0%nat ->
        now (snd (poll_status (JStr "task") "key" 10 running_world))
        < now running_world + 10 * 1000 + 10000
          + Z.of_N (latency
                      (network running_world
                         (pred (served (snd (poll_status (JStr "task") "key"
                                               10 running_world))))))).
Proof.
  apply (poll_status_timeout (JStr "task") "key" 10 running_world).
  - vm_compute. reflexivity.
  - vm_compute. reflexivity.
  - vm_compute. intros result H. discriminate H.
Defined.

(** C8, as stated, fails: the status request has no timeout of its own, so
    one slow reply carries the run past any bound in [max_wait].  With
    [max_wait] 10 and a first reply after 100 s the run ends at 110 s,
    beyond the deadline by more than [max_wait] + 10 s. *)
Lemma poll_status_overruns_deadline :
  ~ (forall task_id api_key max_wait w,
        (forall result,
            fst (poll_status task_id api_key max_wait w) <> Ok result) ->
        now (snd (poll_status task_id api_key max_wait w))
        <= (now w + max_wait * 1000) + (max_wait * 1000 + 10000)).
Proof.
  intro H.
  specialize (H (JStr "task") "key" 10 slow_world).
  assert (Hno : forall result,
             fst (poll_status (JStr "task") "key" 10 slow_world)
             <> Ok result).
  { vm_compute. intros result E. discriminate E. }
  apply H in Hno. vm_compute in Hno. apply Hno. reflexivity.
Qed.

(** C4: when the first two status responses report RUNNING and the third
    reports SUCCEEDED with output [[url]], and the deadline leaves room for
    three attempts (the two ten-second sleeps and the latencies of the
    first two requests end before it; with immediate replies: [max_wait]
    greater than 20), [poll_status] returns the third response with
    [video_url] set to [url], after exactly three status requests. *)
Theorem poll_status_third_check_succeeds :
  forall (task_id : json) (api_key : string) (max_wait : Z) (w : world)
         (url : string),
    reports_status (network w (served w)) "RUNNING" = true ->
    reports_status (network w (S (served w))) "RUNNING" = true ->
    reports_status (network w (S (S (served w)))) "SUCCEEDED" = true ->
    reply_output (network w (S (S (served w)))) = Some (JList [JStr url]) ->
    10000 + 10000 + Z.of_N (latency (network w (served w)))
      + Z.of_N (latency (network w (S (served w)))) < max_wait * 1000 ->
    exists d w',
      poll_status task_id api_key max_wait w = (Ok (JDict d), w')
      /\ dict_lookup "video_url" d = Some (JStr url)
      /\ status_checks (journal w') = (status_checks (journal w) + 3)%nat
      /\ served w' = (served w + 3)%nat.
Proof.
  intros task_id api_key max_wait w url H1 H2 H3 Hout Hfit.
  assert (L1 := N2Z.is_nonneg (latency (network w (served w)))).
  assert (L2 := N2Z.is_nonneg (latency (network w (S (served w))))).
  unfold poll_status, bind at 1, time_time at 1, poll_fuel.
  destruct (Z.to_nat (max_wait / 10)) as [|fuel] eqn:F.
  { exfalso. assert (max_wait / 10 <= 0) by lia.
    Z.to_euclidean_division_equations; lia. }
  set (headers := poll_headers api_key).
  set (end_time := now w + max_wait * 1000).
  (* first check: RUNNING *)
  rewrite poll_loop_unfold.
  replace (now w <? end_time) with true
    by (symmetry; apply Z.ltb_lt; subst end_time; lia).
  rewrite (poll_iteration_running _ _ _ H1).
  set (w1 := after_call w _ 10000).
  (* second check: RUNNING *)
  rewrite poll_loop_unfold.
  replace (now w1 <? end_time) with true
    by (symmetry; apply Z.ltb_lt; subst end_time w1; cbn [now after_call]; lia).
  rewrite (poll_iteration_running _ _ w1 H2).
  set (w2 := after_call w1 _ 10000).
  (* third check: SUCCEEDED *)
  rewrite poll_loop_unfold.
  replace (now w2 <? end_time) with true
    by (symmetry; apply Z.ltb_lt; subst end_time w2 w1;
        cbn [now after_call served network]; lia).
  rewrite (poll_iteration_succeeded _ _ w2 (JStr url) [] H3 Hout).
  eexists. eexists. split; [reflexivity|].
  split; [apply dict_lookup_set|].
  subst w2 w1. cbn [journal served after_call].
  rewrite !status_checks_app. cbn. split; lia.
Qed.

Lemma poll_status_third_check_succeeds_witness :
  exists d w',
    poll_status (JStr "task") "key" 21 third_time_world = (Ok (JDict d), w')
    /\ dict_lookup "video_url" d = Some (JStr "https://x/video.mp4")
    /\ status_checks (journal w')
       = (status_checks (journal third_time_world) + 3)%nat
    /\ served w' = (served third_time_world + 3)%nat.
Proof.
  apply (poll_status_third_check_succeeds
           (JStr "task") "key" 21 third_time_world "https://x/video.mp4").
  - reflexivity.
  - reflexivity.
  - reflexivity.
  - reflexivity.
  - vm_compute. reflexivity.
Defined.

(** ** Submission and encoding *)

(** C3: when the POST is answered 2xx and the body carries no task id (it
    does not parse, is not an object, or its [id] is missing or falsy),
    [generate_video] raises, having made the POST and nothing else: no
    status request is issued.  For a JSON object the error is
    [RuntimeError "No task ID in response"]. *)
Theorem generate_video_missing_task_id :
  forall (lib : Imaging) (first_frame last_frame : frame)
         (promptText model : string) (duration : Z) (ratio : string)
         (seed : Z) (watermark : bool) (api_key : string) (max_wait : Z)
         (w : world) (b64_first b64_last : string) (resp : response),
    encode_image first_frame = inr b64_first ->
    encode_image last_frame = inr b64_last ->
    answer (network w (served w)) = inr resp ->
    (200 <=? status_code resp) && (status_code resp <? 300) = true ->
    response_task_id resp = None ->
    exists e w',
      generate_video first_frame last_frame promptText model duration ratio
                     seed watermark api_key true max_wait w
      = (Raise e, w')
      /\ journal w'
         = journal w
           ++ [HttpPost submit_url (submit_headers api_key)
                 (build_payload (data_uri b64_first) (data_uri b64_last)
                    promptText model duration ratio seed watermark)]
      /\ served w' = S (served w)
      /\ status_checks (journal w') = status_checks (journal w)
      /\ (forall d, json_body resp = Some (JDict d) ->
                    e = RuntimeError [Lit "No task ID in response"]).
Proof.
  intros lib first_frame last_frame promptText model duration ratio seed
    watermark api_key max_wait w b64_first b64_last resp
    Hfirst Hlast Hanswer Hcode Hid.
  assert (Hc : (400 <=? status_code resp) && (status_code resp <? 600) = false).
  { apply andb_prop in Hcode as [_ H300]. apply Z.ltb_lt in H300.
    apply andb_false_iff. left. apply Z.leb_gt. lia. }
  unfold generate_video. cbn [negb].
  rewrite Hfirst, Hlast.
  unfold lift, bind at 1, ret at 1, bind at 1, ret at 1.
  unfold try_except, bind at 1, requests_post, http_call.
  rewrite Hanswer. cbv zeta.
  unfold bind at 1, raise_for_status. rewrite Hc.
  unfold ret at 1, bind at 1, response_json.
  unfold response_task_id in Hid.
  assert (Fin : forall e w0,
             journal w0 = journal w
               ++ [HttpPost submit_url (submit_headers api_key)
                     (build_payload (data_uri b64_first) (data_uri b64_last)
                        promptText model duration ratio seed watermark)] ->
             served w0 = S (served w) ->
             (forall d, json_body resp = Some (JDict d) ->
                        e = RuntimeError [Lit "No task ID in response"]) ->
             exists e' w',
               (Raise e, w0) = (Raise e' : result (json * json * frame), w')
               /\ journal w' = journal w
                   ++ [HttpPost submit_url (submit_headers api_key)
                         (build_payload (data_uri b64_first)
                            (data_uri b64_last)
                            promptText model duration ratio seed watermark)]
               /\ served w' = S (served w)
               /\ status_checks (journal w') = status_checks (journal w)
               /\ (forall d, json_body resp = Some (JDict d) ->
                             e' = RuntimeError [Lit "No task ID in response"])).
  { intros e w0 Hj Hs He. exists e, w0. split; [reflexivity|].
    split; [exact Hj|]. split; [exact Hs|]. split; [|exact He].
    rewrite Hj, status_checks_app. cbn. lia. }
  unfold response_task_id in Hid.
  destruct (json_body resp) as [[| | | | | |d]|] eqn:Hbody;
    try (cbn; apply Fin; [reflexivity|reflexivity|intros; discriminate]).
  unfold ret at 1, bind at 1, py_get.
  assert (T : match dict_lookup "id" d with
              | Some v => truthy v
              | None => false
              end = false).
  { destruct (dict_lookup "id" d) as [v|]; [|reflexivity].
    destruct (truthy v); [discriminate|reflexivity]. }
  destruct (dict_lookup "id" d) as [v|]; cbn; [rewrite T; cbn|];
    (apply Fin; [reflexivity|reflexivity|reflexivity]).
Qed.

Lemma generate_video_missing_task_id_witness :
  exists e w',
    generate_video reference_frame reference_frame "A cinematic scene"
                   "gen3a_turbo" 5 "1280:768" 0 false "key" true 60
                   no_id_world
    = (Raise e, w')
    /\ journal w'
       = journal no_id_world
         ++ [HttpPost submit_url (submit_headers "key")
               (build_payload (data_uri (encoded_text reference_frame))
                  (data_uri (encoded_text reference_frame))
                  "A cinematic scene" "gen3a_turbo" 5 "1280:768" 0 false)]
    /\ served w' = S (served no_id_world)
    /\ status_checks (journal w') = status_checks (journal no_id_world)
    /\ (forall d,
          json_body (ok_json (JDict [("status", JStr "PENDING")]))
          = Some (JDict d) ->
          e = RuntimeError [Lit "No task ID in response"]).
Proof.
  apply (generate_video_missing_task_id Reference.imaging
           reference_frame reference_frame "A cinematic scene"
           "gen3a_turbo" 5 "1280:768" 0 false "key" 60 no_id_world).
  - vm_compute. reflexivity.
  - vm_compute. reflexivity.
  - reflexivity.
  - reflexivity.
  - reflexivity.
Defined.

(** C7, as the code has it: when [encode_image] returns, its output is
    bare base64 text, made of the base64 alphabet and padding only and so
    without the [data:image/jpeg;base64,] prefix, and it decodes to a JPEG
    stream whose size is exactly 384 x 384; the data URI is formed by
    [generate_video], which posts [data:image/jpeg;base64,] followed by
    that text as the [uri] of each prompt image. *)
Theorem encode_image_base64_jpeg :
  (forall (lib : Imaging) (img : frame) (s : string),
      encode_image img = inr s ->
      Base64.all_chars Base64.b64_ascii s = true
      /\ String.prefix "data:image/jpeg;base64," s = false
      /\ exists data,
           Base64.b64decode s = Some data
           /\ jpeg_size data = Some (384, 384))
  /\ (forall (lib : Imaging) (first_frame last_frame : frame)
             (promptText model : string) (duration : Z) (ratio : string)
             (seed : Z) (watermark : bool) (api_key : string) (max_wait : Z)
             (w : world) (b64_first b64_last : string),
         encode_image first_frame = inr b64_first ->
         encode_image last_frame = inr b64_last ->
         exists tail,
           journal (snd (generate_video first_frame last_frame promptText
                           model duration ratio seed watermark api_key true
                           max_wait w))
           = journal w
             ++ HttpPost submit_url (submit_headers api_key)
                  (build_payload
                     ("data:image/jpeg;base64," ++ b64_first)%string
                     ("data:image/jpeg;base64," ++ b64_last)%string
                     promptText model duration ratio seed watermark)
             :: tail).
Proof.
  split; [|exact generate_video_posts_data_uris].
  intros lib img s. unfold encode_image.
  destruct (match img with
            | TensorFrame t => tensor_to_image t
            | ImageFrame im => inr im
            end) as [e|im]; [discriminate|].
  destruct (image_resize im target_size LANCZOS) as [e|resized] eqn:R;
    [discriminate|].
  destruct (image_save_jpeg resized 30) as [e|buffered] eqn:S;
    [discriminate|].
  intro E. inversion E. subst s. clear E.
  pose proof (Base64Facts.b64encode_chars buffered) as C.
  split; [exact C|]. split; [apply Base64Facts.b64_text_no_scheme; exact C|].
  exists buffered. split; [apply Base64Facts.b64decode_b64encode|].
  apply save_jpeg_size in S. apply resize_size in R.
  rewrite S, R. reflexivity.
Qed.

Lemma encode_image_base64_jpeg_witness :
  (Base64.all_chars Base64.b64_ascii (encoded_text reference_frame) = true
   /\ String.prefix "data:image/jpeg;base64," (encoded_text reference_frame)
      = false
   /\ exists data,
        Base64.b64decode (encoded_text reference_frame) = Some data
        /\ @jpeg_size Reference.imaging data = Some (384, 384))
  /\ exists tail,
       journal (snd (generate_video reference_frame reference_frame
                       "A cinematic scene" "gen3a_turbo" 5 "1280:768" 0
                       false "key" true 60 no_id_world))
       = journal no_id_world
         ++ HttpPost submit_url (submit_headers "key")
              (build_payload
                 ("data:image/jpeg;base64,"
                    ++ encoded_text reference_frame)%string
                 ("data:image/jpeg;base64,"
                    ++ encoded_text reference_frame)%string
                 "A cinematic scene" "gen3a_turbo" 5 "1280:768" 0 false)
         :: tail.
Proof.
  split.
  - apply (proj1 encode_image_base64_jpeg Reference.imaging reference_frame).
    vm_compute. reflexivity.
  - apply (proj2 encode_image_base64_jpeg Reference.imaging
             reference_frame reference_frame).
    + vm_compute. reflexivity.
    + vm_compute. reflexivity.
Defined.

(** C7, as stated, fails: [encode_image] does not return a data URI.  On
    the reference library the encoding of a 512 x 512 RGB frame starts with
    [/9j/], the base64 of the JPEG start-of-image marker. *)
Lemma encode_image_is_not_a_data_uri :
  ~ (forall (lib : Imaging) (img : frame),
        exists payload, encode_image img = inr (data_uri payload)).
Proof.
  intro H. destruct (H Reference.imaging reference_frame) as [payload E].
  vm_compute in E. discriminate E.
Qed.

(** * Further properties of the nodes *)

(** ** The polling loop, reply by reply *)

Lemma poll_iteration_decides (task_id : json)
  (headers : list (string * string)) (w : world) :
  poll_iteration task_id headers w
  = match success_of (network w (served w)) with
    | Some result =>
        (Ok (Some result), after_call w [HttpGet (tasks_url task_id) headers] 0)
    | None =>
        if printable (network w (served w))
        then (Ok None,
              after_call w [HttpGet (tasks_url task_id) headers; Sleep 10]
                         10000)
        else (Raise none_has_no_text,
              after_call w [HttpGet (tasks_url task_id) headers] 0)
    end.
Proof.
  unfold poll_iteration, try_except, poll_try, poll_except, bind,
    requests_get, http_call, raise_for_status, response_json, py_get,
    py_len, py_first, exn_response_text, time_sleep, printable, success_of,
    http_error, first_item, any_Exception, ret, raise, advance, record_event,
    after_call.
  repeat (break_match; cbn -[Z.add Z.mul]; try discriminate; invert_pairs).
  all: rewrite <- ?app_assoc, ?Z.add_0_r; cbn -[Z.add Z.mul];
    try reflexivity.
Qed.

Lemma check_time_shift (w w1 : world) (i : nat) :
  network w1 = network w ->
  served w1 = S (served w) ->
  now w1 = now w + Z.of_N (latency (network w (served w))) + 10000 ->
  check_time w1 i = check_time w (S i).
Proof.
  intros Hn Hs Ht. unfold check_time. rewrite Hn, Hs, Ht.
  cbn [latencies]. rewrite Nat2Z.inj_succ. lia.
Qed.

Lemma reply_at_shift (w w1 : world) (i : nat) :
  network w1 = network w ->
  served w1 = S (served w) ->
  reply_at w1 i = reply_at w (S i).
Proof.
  intros Hn Hs. unfold reply_at. rewrite Hn, Hs. f_equal. lia.
Qed.

Lemma poll_loop_trace (task_id : json) (headers : list (string * string))
  (max_wait end_time : Z) :
  forall (fuel : nat) (attempts : Z) (w : world) (r : result json)
         (w' : world),
    poll_loop fuel task_id headers max_wait end_time attempts w = (r, w') ->
    network w' = network w
    /\ disk_open w' = disk_open w /\ disk_write w' = disk_write w
    /\ exists k : nat,
        (k <= fuel)%nat
        /\ (forall i, (i < k)%nat ->
                      success_of (reply_at w i) = None
                      /\ printable (reply_at w i) = true
                      /\ check_time w i < end_time)
        /\ match r with
           | Ok result =>
               ended_by_request w w' (HttpGet (tasks_url task_id) headers) k
               /\ check_time w k < end_time
               /\ success_of (reply_at w k) = Some result
           | Raise e =>
               (e = timeout_error max_wait (attempts + Z.of_nat k)
                /\ ended_by_test w w' (HttpGet (tasks_url task_id) headers) k
                /\ end_time <= check_time w k)
               \/ (e = none_has_no_text
                   /\ ended_by_request w w'
                        (HttpGet (tasks_url task_id) headers) k
                   /\ check_time w k < end_time
                   /\ success_of (reply_at w k) = None
                   /\ printable (reply_at w k) = false)
           | Starved =>
               k = fuel
               /\ ended_by_test w w' (HttpGet (tasks_url task_id) headers) k
           end.
Proof.
  induction fuel as [|fuel IH]; intros attempts w r w' Hrun.
  - cbn in Hrun. inversion Hrun; subst. repeat split.
    exists 0%nat. split; [lia|]. split; [intros i Hi; lia|].
    unfold ended_by_test, check_time. cbn.
    rewrite Nat.add_0_r, app_nil_r. repeat split; lia.
  - rewrite poll_loop_unfold, poll_iteration_decides in Hrun.
    fold (reply_at w 0) in Hrun.
    assert (R0 : network w (served w) = reply_at w 0)
      by (unfold reply_at; rewrite Nat.add_0_r; reflexivity).
    rewrite R0 in Hrun.
    assert (C0 : check_time w 0 = now w) by (unfold check_time; cbn; lia).
    destruct (now w <? end_time) eqn:E.
    + apply Z.ltb_lt in E.
      destruct (success_of (reply_at w 0)) as [result|] eqn:Sx.
      * inversion Hrun; subst. repeat split.
        exists 0%nat. split; [lia|]. split; [intros i Hi; lia|].
        unfold ended_by_request. cbn [after_call served journal now rounds].
        rewrite C0, <- R0. repeat split; try lia; try assumption.
        rewrite R0. exact Sx.
      * destruct (printable (reply_at w 0)) eqn:P.
        -- set (w1 := after_call w _ 10000) in Hrun.
           assert (Hn : network w1 = network w) by reflexivity.
           assert (Hs : served w1 = S (served w)) by reflexivity.
           assert (Ht : now w1
                        = now w + Z.of_N (latency (network w (served w)))
                          + 10000) by reflexivity.
           assert (Hj : journal w1
                        = journal w
                          ++ [HttpGet (tasks_url task_id) headers; Sleep 10])
             by reflexivity.
           apply IH in Hrun.
           destruct Hrun as (Hnet & Hdo & Hdw & k & Hk & Hbefore & Hend).
           split; [congruence|]. split; [exact Hdo|]. split; [exact Hdw|].
           exists (S k). split; [lia|].
           split.
           { intros [|i] Hi.
             - rewrite C0. auto.
             - rewrite <- (reply_at_shift w w1 i Hn Hs),
                       <- (check_time_shift w w1 i Hn Hs Ht).
               apply Hbefore. lia. }
           rewrite <- (reply_at_shift w w1 k Hn Hs),
                   <- (check_time_shift w w1 k Hn Hs Ht).
           assert (Q : forall ev,
                      ended_by_request w1 w' ev k ->
                      ev = HttpGet (tasks_url task_id) headers ->
                      ended_by_request w w' ev (S k)).
           { unfold ended_by_request. intros ev (A & B & C) ->.
             rewrite <- (reply_at_shift w w1 k Hn Hs),
                     <- (check_time_shift w w1 k Hn Hs Ht).
             split; [lia|]. split; [|exact C].
             rewrite B, Hj. cbn [rounds]. rewrite <- app_assoc. reflexivity. }
           assert (T : forall ev,
                      ended_by_test w1 w' ev k ->
                      ev = HttpGet (tasks_url task_id) headers ->
                      ended_by_test w w' ev (S k)).
           { unfold ended_by_test. intros ev (A & B & C) ->.
             rewrite <- (check_time_shift w w1 k Hn Hs Ht).
             split; [lia|]. split; [|exact C].
             rewrite B, Hj. cbn [rounds]. rewrite <- app_assoc. reflexivity. }
           destruct r as [result|e|].
           ++ destruct Hend as (A & B & C). auto.
           ++ destruct Hend as [(A & B & C)|(A & B & C & D & F)].
              ** left. rewrite Nat2Z.inj_succ.
                 replace (attempts + Z.succ (Z.of_nat k))
                   with (attempts + 1 + Z.of_nat k) by lia. auto.
              ** right. auto 6.
           ++ destruct Hend as (A & B). split; [lia|]. auto.
        -- inversion Hrun; subst. repeat split.
           exists 0%nat. split; [lia|]. split; [intros i Hi; lia|].
           right. unfold ended_by_request.
           cbn [after_call served journal now rounds].
           rewrite C0, <- R0. repeat split; try lia; try assumption.
           ++ rewrite R0. exact Sx.
           ++ rewrite R0. exact P.
    + inversion Hrun; subst. repeat split.
      exists 0%nat. split; [lia|]. split; [intros i Hi; lia|].
      left. apply Z.ltb_ge in E. unfold ended_by_test. rewrite C0.
      cbn [rounds]. rewrite Z.add_0_r, Nat.add_0_r, app_nil_r.
      repeat split; lia.
Qed.

Lemma latencies_nonneg (net : nat -> reply) (count from : nat) :
  0 <= latencies net from count.
Proof.
  revert from. induction count as [|c IH]; intro from; cbn [latencies].
  - lia.
  - specialize (IH (S from)). lia.
Qed.

(** The run of [poll_status] as a whole: [k] requests are retried, then
    the loop test fails, or one more request ends the run. *)
Lemma poll_status_trace (task_id : json) (api_key : string) (max_wait : Z)
  (w : world) (r : result json) (w' : world) :
  poll_status task_id api_key max_wait w = (r, w') ->
  network w' = network w
  /\ disk_open w' = disk_open w /\ disk_write w' = disk_write w
  /\ exists k : nat,
      (forall i, (i < k)%nat ->
                 success_of (reply_at w i) = None
                 /\ printable (reply_at w i) = true
                 /\ check_time w i < now w + max_wait * 1000)
      /\ match r with
         | Ok result =>
             ended_by_request w w' (status_get task_id api_key) k
             /\ check_time w k < now w + max_wait * 1000
             /\ success_of (reply_at w k) = Some result
         | Raise e =>
             (e = timeout_error max_wait (Z.of_nat k)
              /\ ended_by_test w w' (status_get task_id api_key) k
              /\ now w + max_wait * 1000 <= check_time w k)
             \/ (e = none_has_no_text
                 /\ ended_by_request w w' (status_get task_id api_key) k
                 /\ check_time w k < now w + max_wait * 1000
                 /\ success_of (reply_at w k) = None
                 /\ printable (reply_at w k) = false)
         | Starved => False
         end.
Proof.
  intro Hrun. pose proof (poll_status_spec _ _ _ _ _ _ Hrun) as [_ Hspec].
  unfold poll_status, bind at 1, time_time at 1 in Hrun.
  apply poll_loop_trace in Hrun.
  destruct Hrun as (Hn & Hdo & Hdw & k & _ & Hbefore & Hend).
  split; [exact Hn|]. split; [exact Hdo|]. split; [exact Hdw|].
  exists k. split; [exact Hbefore|].
  destruct r as [result|e|]; [exact Hend|exact Hend|exact Hspec].
Qed.

(** X1: every effect of [poll_status] is a GET of the task's status, with
    the bearer token and the version header, or a ten-second sleep.  They
    alternate from a GET on, so two status requests are never less than one
    sleep apart; a run that times out has slept after its last request and
    reports as many attempts as it made requests, any other run ends on a
    request. *)
Theorem poll_status_journal_shape :
  forall (task_id : json) (api_key : string) (max_wait : Z) (w : world),
  exists k : nat,
    let res := poll_status task_id api_key max_wait w in
    (fst res = Raise (timeout_error max_wait (Z.of_nat k))
     /\ journal (snd res)
        = journal w ++ rounds (status_get task_id api_key) k)
    \/ (((exists result, fst res = Ok result)
         \/ fst res = Raise none_has_no_text)
        /\ journal (snd res)
           = journal w ++ rounds (status_get task_id api_key) k
               ++ [status_get task_id api_key]).
Proof.
  intros task_id api_key max_wait w.
  destruct (poll_status task_id api_key max_wait w) as [r w'] eqn:Hrun.
  apply poll_status_trace in Hrun.
  destruct Hrun as (_ & _ & _ & k & _ & Hend). exists k. cbn [fst snd].
  destruct r as [result|e|].
  - destruct Hend as ((_ & Hj & _) & _). right. split; [|exact Hj].
    left. exists result. reflexivity.
  - destruct Hend as [(-> & (_ & Hj & _) & _)|(-> & (_ & Hj & _) & _)].
    + left. split; [reflexivity|exact Hj].
    + right. split; [right; reflexivity|exact Hj].
  - contradiction.
Qed.

Lemma latencies_snoc (net : nat -> reply) (count from : nat) :
  latencies net from (S count)
  = latencies net from count + Z.of_N (latency (net (from + count)%nat)).
Proof.
  revert from. induction count as [|c IH]; intro from.
  - cbn [latencies]. rewrite Nat.add_0_r. lia.
  - change (latencies net from (S (S c)))
      with (Z.of_N (latency (net from)) + latencies net (S from) (S c)).
    rewrite IH. cbn [latencies].
    replace (S from + c)%nat with (from + S c)%nat by lia. lia.
Qed.

Lemma status_checks_rounds (get : event) (k : nat) :
  is_get get = true -> status_checks (rounds get k) = k.
Proof.
  intro G. unfold status_checks.
  induction k as [|k IH]; cbn [rounds filter is_get]; [reflexivity|].
  rewrite G. cbn [List.length]. f_equal. exact IH.
Qed.

Lemma ended_by_request_counts (w w' : world) (get : event) (k : nat) :
  is_get get = true ->
  ended_by_request w w' get k ->
  served w' = (served w + S k)%nat
  /\ status_checks (journal w') = (status_checks (journal w) + S k)%nat
  /\ now w' = now w + 10000 * Z.of_nat k
              + latencies (network w) (served w) (S k).
Proof.
  intros G (Hs & Hj & Ht). split; [exact Hs|]. split.
  - rewrite Hj, !status_checks_app, status_checks_rounds by exact G.
    unfold status_checks. cbn [filter]. rewrite G. cbn. lia.
  - rewrite Ht, latencies_snoc. unfold check_time, reply_at. lia.
Qed.

Lemma ended_by_test_counts (w w' : world) (get : event) (k : nat) :
  is_get get = true ->
  ended_by_test w w' get k ->
  served w' = (served w + k)%nat
  /\ status_checks (journal w') = (status_checks (journal w) + k)%nat
  /\ now w' = now w + 10000 * Z.of_nat k
              + latencies (network w) (served w) k.
Proof.
  intros G (Hs & Hj & Ht). split; [exact Hs|]. split.
  - rewrite Hj, status_checks_app, status_checks_rounds by exact G.
    reflexivity.
  - exact Ht.
Qed.

(** X2: the time a run of [poll_status] takes is ten seconds for each
    sleep plus the latencies of the status requests it made; it makes as
    many requests as sleeps, or one more. *)
Theorem poll_status_elapsed :
  forall (task_id : json) (api_key : string) (max_wait : Z) (w : world),
  exists sleeps requests : nat,
    let res := poll_status task_id api_key max_wait w in
    served (snd res) = (served w + requests)%nat
    /\ status_checks (journal (snd res))
       = (status_checks (journal w) + requests)%nat
    /\ now (snd res)
       = now w + 10000 * Z.of_nat sleeps
         + latencies (network w) (served w) requests
    /\ (requests = sleeps \/ requests = S sleeps).
Proof.
  intros task_id api_key max_wait w.
  destruct (poll_status task_id api_key max_wait w) as [r w'] eqn:Hrun.
  apply poll_status_trace in Hrun.
  destruct Hrun as (_ & _ & _ & k & _ & Hend). exists k. cbn [fst snd].
  assert (G : is_get (status_get task_id api_key) = true) by reflexivity.
  destruct r as [result|e|].
  - destruct Hend as (H & _). apply ended_by_request_counts in H; [|exact G].
    exists (S k). intuition.
  - destruct Hend as [(_ & H & _)|(_ & H & _)].
    + apply ended_by_test_counts in H; [|exact G]. exists k. intuition.
    + apply ended_by_request_counts in H; [|exact G]. exists (S k). intuition.
  - contradiction.
Qed.

(** X3: whatever the service answers, a run of [poll_status] that makes
    [n] status requests has [10 * (n - 1) < max_wait]: the last one starts
    before the deadline, ten seconds at least for each one before it.
    With a positive [max_wait] at least one request is made; for a
    [max_wait] that INPUT_TYPES admits (10 to 300) there are between 1
    and 30. *)
Theorem poll_status_request_count :
  forall (task_id : json) (api_key : string) (max_wait : Z) (w : world),
    let requests :=
      (served (snd (poll_status task_id api_key max_wait w)) - served w)%nat in
    (served w <= served (snd (poll_status task_id api_key max_wait w)))%nat
    /\ (requests = 0%nat \/ 10 * (Z.of_nat requests - 1) < max_wait)
    /\ (0 < max_wait -> (1 <= requests)%nat)
    /\ (admits_int generator_input_types "max_wait" max_wait = true ->
        (1 <= requests <= 30)%nat).
Proof.
  intros task_id api_key max_wait w. cbv zeta.
  destruct (poll_status task_id api_key max_wait w) as [r w'] eqn:Hrun.
  apply poll_status_trace in Hrun.
  destruct Hrun as (_ & _ & _ & k & Hbefore & Hend). cbn [snd].
  assert (B : forall i, check_time w i < now w + max_wait * 1000 ->
                        10 * Z.of_nat i < max_wait).
  { intros i H. unfold check_time in H.
    pose proof (latencies_nonneg (network w) i (served w)). lia. }
  assert (C0 : check_time w 0 = now w) by (unfold check_time; cbn; lia).
  assert (A : admits_int generator_input_types "max_wait" max_wait = true ->
              10 <= max_wait <= 300).
  { unfold admits_int. cbn. intro H. apply andb_prop in H as [H1 H2].
    apply Z.leb_le in H1, H2. lia. }
  destruct r as [result|e|].
  - destruct Hend as ((Hs & _) & Hlast & _). apply B in Hlast.
    rewrite Hs. replace (served w + S k - served w)%nat with (S k) by lia.
    split; [lia|]. split; [right; lia|]. split; [lia|].
    intro H. apply A in H. lia.
  - destruct Hend as [(_ & (Hs & _) & Hpast)|(_ & (Hs & _) & Hlast & _)].
    + rewrite Hs. replace (served w + k - served w)%nat with k by lia.
      split; [lia|].
      assert (K : k = 0%nat \/ 10 * (Z.of_nat k - 1) < max_wait).
      { destruct k as [|k]; [left; reflexivity|right].
        destruct (Hbefore k) as (_ & _ & H); [lia|]. apply B in H. lia. }
      assert (P : 0 < max_wait -> (1 <= k)%nat).
      { intro H. destruct k as [|k]; [|lia]. rewrite C0 in Hpast. lia. }
      split; [exact K|]. split; [exact P|].
      intro H. apply A in H. split; [apply P; lia|].
      destruct K as [->|K]; lia.
    + apply B in Hlast.
      rewrite Hs. replace (served w + S k - served w)%nat with (S k) by lia.
      split; [lia|]. split; [right; lia|]. split; [lia|].
      intro H. apply A in H. lia.
  - contradiction.
Qed.

Lemma poll_status_request_count_witness :
  (1 <= served (snd (poll_status (JStr "task") "key" 60 running_world))
        - served running_world)%nat
  /\ (1 <= served (snd (poll_status (JStr "task") "key" 60 running_world))
           - served running_world <= 30)%nat.
Proof.
  split.
  - apply (proj1 (proj2 (proj2 (poll_status_request_count
                                  (JStr "task") "key" 60 running_world)))).
    reflexivity.
  - apply (proj2 (proj2 (proj2 (poll_status_request_count
                                  (JStr "task") "key" 60 running_world)))).
    reflexivity.
Defined.

Lemma success_of_inv (r : reply) (result : json) :
  success_of r = Some result ->
  exists resp d output first,
    answer r = inr resp
    /\ http_error resp = false
    /\ json_body resp = Some (JDict d)
    /\ dict_lookup "status" d = Some (JStr "SUCCEEDED")
    /\ dict_lookup "output" d = Some output
    /\ first_item output = Some first
    /\ result = JDict (dict_set "video_url" first d).
Proof.
  unfold success_of.
  destruct (answer r) as [e|resp] eqn:Ha; [discriminate|].
  destruct (http_error resp) eqn:Hh; [discriminate|].
  destruct (json_body resp) as [[| | | | | |d]|] eqn:Hb; try discriminate.
  destruct (dict_lookup "status" d) as [status|] eqn:Hs; [|discriminate].
  destruct (py_eq_str status "SUCCEEDED") eqn:E; [|discriminate].
  destruct (dict_lookup "output" d) as [output|] eqn:Ho; [|discriminate].
  destruct (first_item output) as [first|] eqn:F; [|discriminate].
  intro H. inversion H. subst result.
  destruct status; try discriminate E. cbn in E.
  apply String.eqb_eq in E. subst s.
  exists resp, d, output, first. repeat split; assumption.
Qed.

Lemma dict_lookup_set_other (k k' : string) (v : json)
  (d : list (string * json)) :
  k' <> k -> dict_lookup k' (dict_set k v d) = dict_lookup k' d.
Proof.
  intro N. induction d as [|[k0 v0] d IH]; cbn.
  - destruct (String.eqb k' k) eqn:E; [|reflexivity].
    apply String.eqb_eq in E. contradiction.
  - destruct (String.eqb k k0) eqn:E; cbn.
    + apply String.eqb_eq in E. subst k0.
      destruct (String.eqb k' k) eqn:E'; [|reflexivity].
      apply String.eqb_eq in E'. contradiction.
    + destruct (String.eqb k' k0); [reflexivity|exact IH].
Qed.

(** X4: when [poll_status] returns, the result comes from the last status
    response, whose request started before the deadline, and no earlier
    response of the run was a success. *)
Theorem poll_status_returns_first_success :
  forall (task_id : json) (api_key : string) (max_wait : Z) (w w' : world)
         (result : json),
    poll_status task_id api_key max_wait w = (Ok result, w') ->
    exists k : nat,
      served w' = (served w + S k)%nat
      /\ success_of (reply_at w k) = Some result
      /\ (forall i, (i < k)%nat -> success_of (reply_at w i) = None)
      /\ check_time w k < now w + max_wait * 1000.
Proof.
  intros task_id api_key max_wait w w' result Hrun.
  apply poll_status_trace in Hrun.
  destruct Hrun as (_ & _ & _ & k & Hbefore & (Hs & _) & Hlast & Hok).
  exists k. repeat split; try assumption.
  intros i Hi. apply Hbefore. exact Hi.
Qed.

Lemma poll_status_returns_first_success_witness :
  exists k : nat,
    served (snd (poll_status (JStr "task") "key" 21 third_time_world))
    = (served third_time_world + S k)%nat
    /\ success_of (reply_at third_time_world k)
       = Some (returned
                 (fst (poll_status (JStr "task") "key" 21 third_time_world)))
    /\ (forall i, (i < k)%nat ->
                  success_of (reply_at third_time_world i) = None)
    /\ check_time third_time_world k < now third_time_world + 21 * 1000.
Proof.
  apply (poll_status_returns_first_success (JStr "task") "key" 21
           third_time_world).
  vm_compute. reflexivity.
Defined.

(** X5: the dict that [poll_status] returns is the JSON object of the last
    response, whose status is SUCCEEDED, with [video_url] set to the first
    item of its [output]; every other key reads as in the response. *)
Theorem poll_status_result_fields :
  forall (task_id : json) (api_key : string) (max_wait : Z) (w w' : world)
         (result : json),
    poll_status task_id api_key max_wait w = (Ok result, w') ->
    exists d d' output first,
      result = JDict d'
      /\ reply_object (network w (pred (served w'))) = d
      /\ dict_lookup "status" d = Some (JStr "SUCCEEDED")
      /\ dict_lookup "output" d = Some output
      /\ first_item output = Some first
      /\ dict_lookup "video_url" d' = Some first
      /\ (forall key, key <> "video_url" ->
                      dict_lookup key d' = dict_lookup key d).
Proof.
  intros task_id api_key max_wait w w' result Hrun.
  apply poll_status_trace in Hrun.
  destruct Hrun as (_ & _ & _ & k & _ & (Hs & _) & _ & Hok).
  apply success_of_inv in Hok.
  destruct Hok as (resp & d & output & first & Ha & _ & Hb & Hst & Ho & Hf
                   & ->).
  exists d, (dict_set "video_url" first d), output, first.
  split; [reflexivity|]. split.
  { rewrite Hs. replace (pred (served w + S k)) with (served w + k)%nat by lia.
    fold (reply_at w k). unfold reply_object. rewrite Ha, Hb. reflexivity. }
  split; [exact Hst|]. split; [exact Ho|]. split; [exact Hf|].
  split; [apply dict_lookup_set|].
  intros key N. apply dict_lookup_set_other. exact N.
Qed.

Lemma poll_status_result_fields_witness :
  exists d d' output first,
    returned (fst (poll_status (JStr "task") "key" 21 third_time_world))
    = JDict d'
    /\ reply_object
         (network third_time_world
            (pred (served (snd (poll_status (JStr "task") "key" 21
                                  third_time_world))))) = d
    /\ dict_lookup "status" d = Some (JStr "SUCCEEDED")
    /\ dict_lookup "output" d = Some output
    /\ first_item output = Some first
    /\ dict_lookup "video_url" d' = Some first
    /\ (forall key, key <> "video_url" ->
                    dict_lookup key d' = dict_lookup key d).
Proof.
  apply (poll_status_result_fields (JStr "task") "key" 21 third_time_world).
  vm_compute. reflexivity.
Defined.

Lemma check_time_mono (w : world) (i : nat) : now w <= check_time w i.
Proof.
  unfold check_time. pose proof (latencies_nonneg (network w) i (served w)).
  lia.
Qed.

Lemma poll_loop_reaches (task_id : json) (headers : list (string * string))
  (max_wait end_time : Z) (result : json) :
  forall (k fuel : nat) (attempts : Z) (w : world),
    (k < fuel)%nat ->
    (forall i, (i < k)%nat ->
               success_of (reply_at w i) = None
               /\ printable (reply_at w i) = true) ->
    success_of (reply_at w k) = Some result ->
    check_time w k < end_time ->
    exists w',
      poll_loop fuel task_id headers max_wait end_time attempts w
      = (Ok result, w')
      /\ ended_by_request w w' (HttpGet (tasks_url task_id) headers) k.
Proof.
  induction k as [|k IH]; intros fuel attempts w Hfuel Hbefore Hok Htime;
    (destruct fuel as [|fuel]; [lia|]);
    rewrite poll_loop_unfold, poll_iteration_decides;
    assert (R0 : network w (served w) = reply_at w 0)
      by (unfold reply_at; rewrite Nat.add_0_r; reflexivity);
    rewrite R0;
    pose proof (check_time_mono w 0) as M0;
    assert (C0 : check_time w 0 = now w) by (unfold check_time; cbn; lia).
  - rewrite C0 in Htime.
    replace (now w <? end_time) with true by (symmetry; apply Z.ltb_lt; lia).
    rewrite Hok. eexists. split; [reflexivity|].
    unfold ended_by_request. cbn [after_call served journal now rounds].
    rewrite C0, <- R0. repeat split; lia.
  - pose proof (check_time_mono w (S k)) as M.
    replace (now w <? end_time) with true by (symmetry; apply Z.ltb_lt; lia).
    destruct (Hbefore 0%nat) as [S0 P0]; [lia|]. rewrite S0, P0.
    set (w1 := after_call w _ 10000).
    assert (Hn : network w1 = network w) by reflexivity.
    assert (Hs : served w1 = S (served w)) by reflexivity.
    assert (Ht : now w1
                 = now w + Z.of_N (latency (network w (served w))) + 10000)
      by reflexivity.
    assert (Hj : journal w1
                 = journal w
                   ++ [HttpGet (tasks_url task_id) headers; Sleep 10])
      by reflexivity.
    destruct (IH fuel (attempts + 1) w1) as (w' & Hrun & A & B & C).
    + lia.
    + intros i Hi. rewrite (reply_at_shift w w1 i Hn Hs).
      apply Hbefore. lia.
    + rewrite (reply_at_shift w w1 k Hn Hs). exact Hok.
    + rewrite (check_time_shift w w1 k Hn Hs Ht). exact Htime.
    + exists w'. split; [exact Hrun|].
      unfold ended_by_request.
      rewrite <- (reply_at_shift w w1 k Hn Hs),
              <- (check_time_shift w w1 k Hn Hs Ht).
      split; [lia|]. split; [|exact C].
      rewrite B, Hj. cbn [rounds]. rewrite <- app_assoc. reflexivity.
Qed.

(** X6: when the first [k] status replies are retried ones, the next is a
    success and its request starts before the deadline, [poll_status]
    returns that success after [k + 1] requests and [k] sleeps. *)
Theorem poll_status_reaches_success :
  forall (task_id : json) (api_key : string) (max_wait : Z) (w : world)
         (k : nat) (result : json),
    forallb (fun i => retried (reply_at w i)) (seq 0 k) = true ->
    success_of (reply_at w k) = Some result ->
    check_time w k < now w + max_wait * 1000 ->
    exists w',
      poll_status task_id api_key max_wait w = (Ok result, w')
      /\ served w' = (served w + S k)%nat
      /\ journal w'
         = journal w ++ rounds (status_get task_id api_key) k
             ++ [status_get task_id api_key]
      /\ now w' = check_time w k + Z.of_N (latency (reply_at w k)).
Proof.
  intros task_id api_key max_wait w k result Hbefore Hok Htime.
  unfold poll_status, bind at 1, time_time at 1.
  apply poll_loop_reaches; try assumption.
  - pose proof (check_time_mono w k) as M. unfold check_time in Htime.
    pose proof (latencies_nonneg (network w) k (served w)).
    unfold poll_fuel.
    assert (Z.of_nat k <= max_wait / 10)
      by (apply Z.div_le_lower_bound; lia).
    lia.
  - intros i Hi. rewrite forallb_forall in Hbefore.
    assert (Hin : In i (seq 0 k)) by (apply in_seq; lia).
    apply Hbefore in Hin. unfold retried in Hin.
    destruct (success_of (reply_at w i)); [discriminate|]. auto.
Qed.

Lemma poll_status_reaches_success_witness :
  exists w',
    poll_status (JStr "task") "key" 21 third_time_world
    = (Ok (JDict [("status", JStr "SUCCEEDED");
                  ("output", JList [JStr "https://x/video.mp4"]);
                  ("video_url", JStr "https://x/video.mp4")]), w')
    /\ served w' = (served third_time_world + 3)%nat
    /\ journal w'
       = journal third_time_world
         ++ rounds (status_get (JStr "task") "key") 2
         ++ [status_get (JStr "task") "key"]
    /\ now w' = check_time third_time_world 2
                + Z.of_N (latency (reply_at third_time_world 2)).
Proof.
  apply (poll_status_reaches_success (JStr "task") "key" 21 third_time_world
           2).
  - reflexivity.
  - reflexivity.
  - vm_compute. reflexivity.
Defined.

(** X7: a SUCCEEDED response without an [output], or with one that is
    empty or has no first item, is not taken as a success: the iteration
    sleeps ten seconds and the loop goes on. *)
Theorem poll_iteration_succeeded_without_output :
  forall (task_id : json) (headers : list (string * string)) (w : world),
    reports_status (network w (served w)) "SUCCEEDED" = true ->
    reply_first_output (network w (served w)) = None ->
    poll_iteration task_id headers w
    = (Ok None,
       after_call w [HttpGet (tasks_url task_id) headers; Sleep 10] 10000).
Proof.
  intros task_id headers w Hst Hout.
  rewrite poll_iteration_decides.
  apply reports_status_inv in Hst.
  destruct Hst as (resp & Ha & Hc & Hj & Hs).
  unfold reply_first_output, reply_output in Hout.
  unfold success_of, printable, http_error.
  rewrite Ha, Hc, Hj, Hs. cbn [py_eq_str String.eqb Ascii.eqb Bool.eqb].
  destruct (dict_lookup "output" (reply_object (network w (served w))))
    as [output|]; [rewrite Hout|]; reflexivity.
Qed.

Lemma poll_iteration_succeeded_without_output_witness :
  poll_iteration (JStr "task") (poll_headers "key") empty_output_world
  = (Ok None,
     after_call empty_output_world
       [HttpGet (tasks_url (JStr "task")) (poll_headers "key"); Sleep 10]
       10000).
Proof.
  apply (poll_iteration_succeeded_without_output
           (JStr "task") (poll_headers "key") empty_output_world).
  - reflexivity.
  - reflexivity.
Defined.

(** X8: a status request that is answered 4xx or 5xx, or that raises an
    exception carrying a response or one that is not of [requests], is
    retried: the iteration sleeps ten seconds and the loop goes on. *)
Theorem poll_iteration_transport_failure :
  forall (task_id : json) (headers : list (string * string)) (w : world),
    transport_failure (network w (served w)) = true ->
    poll_iteration task_id headers w
    = (Ok None,
       after_call w [HttpGet (tasks_url task_id) headers; Sleep 10] 10000).
Proof.
  intros task_id headers w H.
  rewrite poll_iteration_decides.
  unfold transport_failure in H. unfold success_of, printable, http_error in *.
  destruct (answer (network w (served w))) as [e|resp].
  - destruct e as [| cls [r|] | | | | | |]; try reflexivity. discriminate.
  - rewrite H. reflexivity.
Qed.

Lemma poll_iteration_transport_failure_witness :
  poll_iteration (JStr "task") (poll_headers "key") unavailable_world
  = (Ok None,
     after_call unavailable_world
       [HttpGet (tasks_url (JStr "task")) (poll_headers "key"); Sleep 10]
       10000).
Proof.
  apply (poll_iteration_transport_failure
           (JStr "task") (poll_headers "key") unavailable_world).
  reflexivity.
Defined.

(** X9: when the first status request raises a [requests] exception
    without a response (a connection error, a timeout), the handler's
    [e.response.text] raises [AttributeError] and that leaves
    [poll_status] at once: one request, no sleep, no retry. *)
Theorem poll_status_connection_error :
  forall (task_id : json) (api_key : string) (max_wait : Z) (w : world)
         (cls : string),
    answer (network w (served w)) = inl (RequestException cls None) ->
    0 < max_wait ->
    poll_status task_id api_key max_wait w
    = (Raise none_has_no_text,
       after_call w [status_get task_id api_key] 0).
Proof.
  intros task_id api_key max_wait w cls Ha Hpos.
  unfold poll_status, bind at 1, time_time at 1, poll_fuel.
  rewrite poll_loop_unfold, poll_iteration_decides.
  replace (now w <? now w + max_wait * 1000) with true
    by (symmetry; apply Z.ltb_lt; lia).
  unfold success_of, printable. rewrite Ha. reflexivity.
Qed.

Lemma poll_status_connection_error_witness :
  poll_status (JStr "task") "key" 60 offline_world
  = (Raise none_has_no_text,
     after_call offline_world [status_get (JStr "task") "key"] 0).
Proof.
  apply (poll_status_connection_error (JStr "task") "key" 60 offline_world
           "ConnectionError").
  - reflexivity.
  - reflexivity.
Defined.

(** ** Submission and polling together *)

Lemma submit_except_raises {A} (e : exn) (w : world) :
  is_RequestException e = true ->
  @submit_except A e w = (Raise (submission_error e), w).
Proof.
  destruct e as [| cls [r|] | | | | | |]; try discriminate; reflexivity.
Qed.

(** The part of [generate_video] after the encoding, on a known reply to
    the submission. *)
Lemma generate_video_submitted :
  forall (lib : Imaging) (first_frame last_frame : frame)
         (promptText model : string) (duration : Z) (ratio : string)
         (seed : Z) (watermark : bool) (api_key : string) (max_wait : Z)
         (w : world) (b64_first b64_last : string),
    encode_image first_frame = inr b64_first ->
    encode_image last_frame = inr b64_last ->
    let w1 := after_submit w (submit_post api_key b64_first b64_last
                                promptText model duration ratio seed
                                watermark) in
    generate_video first_frame last_frame promptText model duration ratio
                   seed watermark api_key true max_wait w
    = match answer (network w (served w)) with
      | inl e =>
          (Raise (if is_RequestException e then submission_error e else e),
           w1)
      | inr resp =>
          if http_error resp
          then (Raise (submission_error
                         (RequestException "HTTPError" (Some resp))), w1)
          else
            match json_body resp with
            | None => (Raise none_has_no_text, w1)
            | Some (JDict d) =>
                match response_task_id resp with
                | None =>
                    (Raise (RuntimeError [Lit "No task ID in response"]), w1)
                | Some task_id =>
                    match poll_status task_id api_key max_wait w1 with
                    | (Ok (JDict final), w2) =>
                        (Ok (match dict_lookup "video_url" final with
                             | Some v => v
                             | None => JStr ""
                             end, task_id, first_frame), w2)
                    | (Ok _, w2) =>
                        (Raise (AttributeError
                                  "object has no attribute 'get'"), w2)
                    | (Raise e, w2) =>
                        (Raise (if is_RequestException e
                                then submission_error e else e), w2)
                    | (Starved, w2) => (Starved, w2)
                    end
                end
            | Some _ =>
                (Raise (AttributeError "object has no attribute 'get'"), w1)
            end
      end.
Proof.
  intros lib first_frame last_frame promptText model duration ratio seed
    watermark api_key max_wait w b64_first b64_last Hfirst Hlast.
  cbv zeta. unfold generate_video. cbn [negb]. rewrite Hfirst, Hlast.
  unfold lift, bind at 1, ret at 1, bind at 1, ret at 1.
  unfold try_except, bind at 1, requests_post, http_call. cbv zeta.
  fold (submit_post api_key b64_first b64_last promptText model duration
                    ratio seed watermark).
  set (post := submit_post _ _ _ _ _ _ _ _ _).
  change (mkWorld _ _ _ _ _ _) with (after_submit w post).
  set (w1 := after_submit w post). clearbody w1 post.
  destruct (answer (network w (served w))) as [e|resp].
  - cbv beta iota. destruct (is_RequestException e) eqn:Q; [|reflexivity].
    apply submit_except_raises. exact Q.
  - unfold bind at 1, raise_for_status. fold (http_error resp).
    destruct (http_error resp).
    { unfold raise at 1. cbv beta iota. cbn [is_RequestException].
      apply submit_except_raises. reflexivity. }
    unfold ret at 1, bind at 1, response_json, response_task_id.
    destruct (json_body resp) as [body|].
    2:{ unfold raise at 1. cbv beta iota. cbn [is_RequestException].
        apply submit_except_raises. reflexivity. }
    unfold ret at 1, bind at 1, py_get at 1.
    destruct body as [| | | | | |d]; try reflexivity.
    set (task_id := match dict_lookup "id" d with Some v => v | None => JNull end).
    assert (T : (match dict_lookup "id" d with
                 | Some v => ret v
                 | None => ret JNull
                 end) w1 = (Ok task_id, w1))
      by (subst task_id; destruct (dict_lookup "id" d); reflexivity).
    rewrite T. clear T.
    assert (I : match dict_lookup "id" d with
                | Some v => if truthy v then Some v else None
                | None => None
                end = if truthy task_id then Some task_id else None)
      by (subst task_id; destruct (dict_lookup "id" d); reflexivity).
    rewrite I. clear I. clearbody task_id.
    destruct (truthy task_id); cbn [negb]; [|reflexivity].
    unfold bind at 1.
    destruct (poll_status task_id api_key max_wait w1) as [[final|e|] w2].
    + unfold bind at 1, py_get.
      destruct final as [| | | | | |fd]; try reflexivity.
      destruct (dict_lookup "video_url" fd); reflexivity.
    + cbv beta iota. destruct (is_RequestException e) eqn:Q; [|reflexivity].
      apply submit_except_raises. exact Q.
    + reflexivity.
Qed.

Lemma generate_video_encode_first_fails :
  forall (lib : Imaging) (first_frame last_frame : frame)
         (promptText model : string) (duration : Z) (ratio : string)
         (seed : Z) (watermark : bool) (api_key : string) (max_wait : Z)
         (w : world) (e : exn),
    encode_image first_frame = inl e ->
    generate_video first_frame last_frame promptText model duration ratio
                   seed watermark api_key true max_wait w
    = (Raise e, w).
Proof.
  intros. unfold generate_video. cbn [negb]. rewrite H. reflexivity.
Qed.

Lemma generate_video_encode_last_fails :
  forall (lib : Imaging) (first_frame last_frame : frame)
         (promptText model : string) (duration : Z) (ratio : string)
         (seed : Z) (watermark : bool) (api_key : string) (max_wait : Z)
         (w : world) (b64_first : string) (e : exn),
    encode_image first_frame = inr b64_first ->
    encode_image last_frame = inl e ->
    generate_video first_frame last_frame promptText model duration ratio
                   seed watermark api_key true max_wait w
    = (Raise e, w).
Proof.
  intros. unfold generate_video. cbn [negb]. rewrite H, H0. reflexivity.
Qed.

(** X10: when [generate_video] returns with [trigger] true, the preview is
    the first frame, the generation id is the [id] of the submission
    response, the video URL is the first item of the [output] of the last
    status response, and the journal is the one POST followed by status
    requests for that very id, ten-second sleeps between them. *)
Theorem generate_video_returns :
  forall (lib : Imaging) (first_frame last_frame : frame)
         (promptText model : string) (duration : Z) (ratio : string)
         (seed : Z) (watermark : bool) (api_key : string) (max_wait : Z)
         (w w' : world) (video_url generation_id : json) (preview : frame),
    generate_video first_frame last_frame promptText model duration ratio
                   seed watermark api_key true max_wait w
    = (Ok (video_url, generation_id, preview), w') ->
    preview = first_frame
    /\ exists b64_first b64_last resp k,
        encode_image first_frame = inr b64_first
        /\ encode_image last_frame = inr b64_last
        /\ answer (network w (served w)) = inr resp
        /\ response_task_id resp = Some generation_id
        /\ reply_first_output (network w (S (served w) + k)%nat)
           = Some video_url
        /\ served w' = (served w + 2 + k)%nat
        /\ journal w'
           = journal w
             ++ submit_post api_key b64_first b64_last promptText model
                            duration ratio seed watermark
             :: rounds (status_get generation_id api_key) k
             ++ [status_get generation_id api_key].
Proof.
  intros lib first_frame last_frame promptText model duration ratio seed
    watermark api_key max_wait w w' video_url generation_id preview Hrun.
  destruct (encode_image first_frame) as [e|b64_first] eqn:Hfirst.
  { rewrite (generate_video_encode_first_fails _ _ _ _ _ _ _ _ _ _ _ _ _
               Hfirst) in Hrun. discriminate Hrun. }
  destruct (encode_image last_frame) as [e|b64_last] eqn:Hlast.
  { rewrite (generate_video_encode_last_fails _ _ _ _ _ _ _ _ _ _ _ _ _ _
               Hfirst Hlast) in Hrun. discriminate Hrun. }
  rewrite (generate_video_submitted _ _ _ _ _ _ _ _ _ _ _ _ _ _
             Hfirst Hlast) in Hrun.
  set (post := submit_post _ _ _ _ _ _ _ _ _) in Hrun.
  set (w1 := after_submit w post) in Hrun.
  destruct (answer (network w (served w))) as [e|resp] eqn:Ha;
    [discriminate Hrun|].
  destruct (http_error resp); [discriminate Hrun|].
  destruct (json_body resp) as [[| | | | | |d]|] eqn:Hb;
    try discriminate Hrun.
  destruct (response_task_id resp) as [task_id|] eqn:Hid;
    [|discriminate Hrun].
  destruct (poll_status task_id api_key max_wait w1)
    as [[final|e|] w2] eqn:Hpoll; try discriminate Hrun.
  apply poll_status_trace in Hpoll.
  destruct Hpoll as (_ & _ & _ & k & _ & (Hs & Hj & _) & _ & Hok).
  apply success_of_inv in Hok.
  destruct Hok as (resp' & d' & output & first & Ha' & _ & Hb' & _ & Ho & Hf
                   & ->).
  rewrite dict_lookup_set in Hrun. inversion Hrun; subst. clear Hrun.
  split; [reflexivity|].
  exists b64_first, b64_last, resp, k.
  assert (R : reply_at w1 k = network w (S (served w) + k)%nat)
    by reflexivity.
  rewrite R in Ha'.
  repeat split; try assumption.
  - unfold reply_first_output, reply_output, reply_object.
    rewrite Ha', Hb', Ho. exact Hf.
  - rewrite Hs. subst w1. cbn [served after_submit]. lia.
  - rewrite Hj. subst w1. cbn [journal after_submit].
    rewrite <- app_assoc. reflexivity.
Qed.

Lemma generate_video_returns_witness :
  reference_frame = reference_frame
  /\ exists b64_first b64_last resp k,
      encode_image reference_frame = inr b64_first
      /\ encode_image reference_frame = inr b64_last
      /\ answer (network accepted_world (served accepted_world)) = inr resp
      /\ response_task_id resp = Some (JStr "t-1")
      /\ reply_first_output
           (network accepted_world (S (served accepted_world) + k)%nat)
         = Some (JStr "https://x/video.mp4")
      /\ served (snd (reference_run accepted_world))
         = (served accepted_world + 2 + k)%nat
      /\ journal (snd (reference_run accepted_world))
         = journal accepted_world
           ++ submit_post "key" b64_first b64_last "A cinematic scene"
                          "gen3a_turbo" 5 "1280:768" 0 false
           :: rounds (status_get (JStr "t-1") "key") k
           ++ [status_get (JStr "t-1") "key"].
Proof.
  apply (generate_video_returns Reference.imaging reference_frame
           reference_frame "A cinematic scene" "gen3a_turbo" 5 "1280:768" 0
           false "key" 60 accepted_world (snd (reference_run accepted_world))
           (JStr "https://x/video.mp4") (JStr "t-1") reference_frame).
  reflexivity.
Defined.

Lemma poll_status_request_bound (task_id : json) (api_key : string)
  (max_wait : Z) (w : world) (r : result json) (w' : world) :
  poll_status task_id api_key max_wait w = (r, w') ->
  r <> Starved
  /\ (served w <= served w')%nat
  /\ (served w' = served w
      \/ 10 * (Z.of_nat (served w' - served w) - 1) < max_wait).
Proof.
  intro Hrun. apply poll_status_trace in Hrun.
  destruct Hrun as (_ & _ & _ & k & Hbefore & Hend).
  assert (B : forall i, check_time w i < now w + max_wait * 1000 ->
                        10 * Z.of_nat i < max_wait).
  { intros i H. unfold check_time in H.
    pose proof (latencies_nonneg (network w) i (served w)). lia. }
  destruct r as [result|e|]; [| |contradiction].
  - destruct Hend as ((Hs & _) & Hlast & _). apply B in Hlast.
    split; [discriminate|]. split; [lia|]. right. rewrite Hs.
    replace (served w + S k - served w)%nat with (S k) by lia. lia.
  - split; [discriminate|].
    destruct Hend as [(_ & (Hs & _) & _)|(_ & (Hs & _) & Hlast & _)].
    + split; [lia|]. destruct k as [|k]; [left; lia|right].
      destruct (Hbefore k) as (_ & _ & H); [lia|]. apply B in H.
      rewrite Hs. replace (served w + S k - served w)%nat with (S k) by lia.
      lia.
    + apply B in Hlast. split; [lia|]. right. rewrite Hs.
      replace (served w + S k - served w)%nat with (S k) by lia. lia.
Qed.

(** X11: when the encoding of the first frame fails, or that of the last
    frame after the first succeeded, [generate_video] raises that error
    and the world is untouched: nothing is posted. *)
Theorem generate_video_encode_failure :
  forall (lib : Imaging) (first_frame last_frame : frame)
         (promptText model : string) (duration : Z) (ratio : string)
         (seed : Z) (watermark : bool) (api_key : string) (max_wait : Z)
         (w : world) (e : exn),
    (encode_image first_frame = inl e
     \/ (exists b64_first, encode_image first_frame = inr b64_first)
        /\ encode_image last_frame = inl e) ->
    generate_video first_frame last_frame promptText model duration ratio
                   seed watermark api_key true max_wait w
    = (Raise e, w).
Proof.
  intros lib first_frame last_frame promptText model duration ratio seed
    watermark api_key max_wait w e [H|[[b64_first Hfirst] Hlast]].
  - apply generate_video_encode_first_fails. exact H.
  - apply (generate_video_encode_last_fails _ _ _ _ _ _ _ _ _ _ _ _
             b64_first); assumption.
Qed.

Lemma generate_video_encode_failure_witness :
  generate_video rgba_frame reference_frame "A cinematic scene"
                 "gen3a_turbo" 5 "1280:768" 0 false "key" true 60
                 accepted_world
  = (Raise (OSError "cannot write mode as JPEG"), accepted_world).
Proof.
  apply (generate_video_encode_failure Reference.imaging rgba_frame
           reference_frame).
  left. reflexivity.
Defined.

(** X12: when the POST raises, or is answered 4xx or 5xx, the function
    raises after that one call, without polling: the error is
    [RuntimeError "Runway API error: ..."] for an exception with a response
    (the HTTP error among them), the [AttributeError] of
    [e.response.text] for a [requests] exception without one, and the
    exception itself for any other. *)
Theorem generate_video_submission_failure :
  forall (lib : Imaging) (first_frame last_frame : frame)
         (promptText model : string) (duration : Z) (ratio : string)
         (seed : Z) (watermark : bool) (api_key : string) (max_wait : Z)
         (w : world) (b64_first b64_last : string) (e : exn),
    encode_image first_frame = inr b64_first ->
    encode_image last_frame = inr b64_last ->
    submission_failure (network w (served w)) = Some e ->
    generate_video first_frame last_frame promptText model duration ratio
                   seed watermark api_key true max_wait w
    = (Raise (submission_error e),
       after_submit w (submit_post api_key b64_first b64_last promptText
                         model duration ratio seed watermark)).
Proof.
  intros lib first_frame last_frame promptText model duration ratio seed
    watermark api_key max_wait w b64_first b64_last e Hfirst Hlast Hfail.
  rewrite (generate_video_submitted _ _ _ _ _ _ _ _ _ _ _ _ _ _
             Hfirst Hlast).
  unfold submission_failure in Hfail.
  destruct (answer (network w (served w))) as [e0|resp].
  - inversion Hfail. subst e0.
    destruct e as [| cls [r|] | | | | | |]; reflexivity.
  - destruct (http_error resp); [|discriminate].
    inversion Hfail. reflexivity.
Qed.

Lemma generate_video_submission_failure_witness :
  reference_run unauthorized_world
  = (Raise (RuntimeError
              [Lit "Runway API error: ";
               StrOf (RequestException "HTTPError" (Some unauthorized))]),
     after_submit unauthorized_world reference_post).
Proof.
  apply (generate_video_submission_failure Reference.imaging reference_frame
           reference_frame "A cinematic scene" "gen3a_turbo" 5 "1280:768" 0
           false "key" 60 unauthorized_world
           (encoded_text reference_frame) (encoded_text reference_frame)
           (RequestException "HTTPError" (Some unauthorized))).
  - vm_compute. reflexivity.
  - vm_compute. reflexivity.
  - reflexivity.
Defined.

(** X13: a run of [generate_video] never runs out of fuel, and it makes
    at most one HTTP call or, with [n] calls, [10 * (n - 2) < max_wait]:
    the POST and the status requests the deadline leaves room for. *)
Theorem generate_video_call_bound :
  forall (lib : Imaging) (first_frame last_frame : frame)
         (promptText model : string) (duration : Z) (ratio : string)
         (seed : Z) (watermark : bool) (api_key : string) (trigger : bool)
         (max_wait : Z) (w : world),
    let res := generate_video first_frame last_frame promptText model
                 duration ratio seed watermark api_key trigger max_wait w in
    fst res <> Starved
    /\ (served w <= served (snd res))%nat
    /\ ((served (snd res) <= served w + 1)%nat
        \/ 10 * (Z.of_nat (served (snd res) - served w) - 2) < max_wait).
Proof.
  intros lib first_frame last_frame promptText model duration ratio seed
    watermark api_key trigger max_wait w. cbv zeta.
  destruct trigger.
  2:{ cbn. split; [discriminate|]. split; [lia|]. left. lia. }
  destruct (encode_image first_frame) as [e|b64_first] eqn:Hfirst.
  { rewrite (generate_video_encode_first_fails _ _ _ _ _ _ _ _ _ _ _ _ _
               Hfirst). cbn. split; [discriminate|]. split; lia. }
  destruct (encode_image last_frame) as [e|b64_last] eqn:Hlast.
  { rewrite (generate_video_encode_last_fails _ _ _ _ _ _ _ _ _ _ _ _ _ _
               Hfirst Hlast). cbn. split; [discriminate|]. split; lia. }
  rewrite (generate_video_submitted _ _ _ _ _ _ _ _ _ _ _ _ _ _
             Hfirst Hlast).
  set (w1 := after_submit w _).
  assert (S1 : served w1 = S (served w)) by reflexivity.
  assert (E1 : forall e : exn,
             fst (@Raise (json * json * frame) e, w1) <> Starved
             /\ (served w <= served (snd (@Raise (json * json * frame) e, w1)))%nat
             /\ ((served (snd (@Raise (json * json * frame) e, w1))
                   <= served w + 1)%nat
                 \/ 10 * (Z.of_nat
                            (served (snd (@Raise (json * json * frame) e, w1))
                             - served w) - 2) < max_wait)).
  { intro e. cbn [fst snd]. rewrite S1.
    split; [discriminate|]. split; [lia|]. left. lia. }
  destruct (answer (network w (served w))) as [e|resp]; [apply E1|].
  destruct (http_error resp); [apply E1|].
  destruct (json_body resp) as [[| | | | | |d]|]; try apply E1.
  destruct (response_task_id resp) as [task_id|]; [|apply E1].
  destruct (poll_status task_id api_key max_wait w1) as [rp w2] eqn:Hpoll.
  apply poll_status_request_bound in Hpoll.
  destruct Hpoll as (Hns & Hle & Hb).
  assert (B : (served w <= served w2)%nat
              /\ ((served w2 <= served w + 1)%nat
                  \/ 10 * (Z.of_nat (served w2 - served w) - 2) < max_wait)).
  { split; [lia|]. destruct Hb as [Hb|Hb]; [left; lia|right].
    replace (Z.of_nat (served w2 - served w))
      with (Z.of_nat (served w2 - served w1) + 1) by lia. lia. }
  destruct rp as [[| | | | | |final]|e|]; cbn [fst snd];
    try (split; [discriminate|exact B]).
  contradiction.
Qed.

(** X14: when the submission is accepted with a task id, the first [k]
    status replies are retried ones and the next reports SUCCEEDED with a
    first output item, its request starting before the deadline, then
    [generate_video] returns that item, the task id and the first frame,
    after the POST and [k + 1] status requests for that id. *)
Theorem generate_video_end_to_end :
  forall (lib : Imaging) (first_frame last_frame : frame)
         (promptText model : string) (duration : Z) (ratio : string)
         (seed : Z) (watermark : bool) (api_key : string) (max_wait : Z)
         (w : world) (b64_first b64_last : string) (resp : response)
         (task_id video_url : json) (k : nat),
    encode_image first_frame = inr b64_first ->
    encode_image last_frame = inr b64_last ->
    answer (network w (served w)) = inr resp ->
    http_error resp = false ->
    response_task_id resp = Some task_id ->
    let w1 := after_submit w (submit_post api_key b64_first b64_last
                                promptText model duration ratio seed
                                watermark) in
    forallb (fun i => retried (reply_at w1 i)) (seq 0 k) = true ->
    reports_status (reply_at w1 k) "SUCCEEDED" = true ->
    reply_first_output (reply_at w1 k) = Some video_url ->
    check_time w1 k < now w1 + max_wait * 1000 ->
    exists w',
      generate_video first_frame last_frame promptText model duration ratio
                     seed watermark api_key true max_wait w
      = (Ok (video_url, task_id, first_frame), w')
      /\ served w' = (served w + 2 + k)%nat
      /\ journal w'
         = journal w1 ++ rounds (status_get task_id api_key) k
             ++ [status_get task_id api_key].
Proof.
  intros lib first_frame last_frame promptText model duration ratio seed
    watermark api_key max_wait w b64_first b64_last resp task_id video_url k
    Hfirst Hlast Ha Hh Hid w1 Hbefore Hst Hout Htime.
  assert (Hok : success_of (reply_at w1 k)
                = Some (JDict (dict_set "video_url" video_url
                                 (reply_object (reply_at w1 k))))).
  { apply reports_status_inv in Hst.
    destruct Hst as (resp' & Ha' & Hc & Hj & Hs).
    unfold reply_first_output, reply_output in Hout.
    unfold success_of, http_error. rewrite Ha', Hc, Hj, Hs.
    cbn [py_eq_str String.eqb Ascii.eqb Bool.eqb].
    destruct (dict_lookup "output" (reply_object (reply_at w1 k)))
      as [output|]; [|discriminate].
    rewrite Hout. reflexivity. }
  destruct (poll_loop_reaches task_id (poll_headers api_key) max_wait
              (now w1 + max_wait * 1000)
              (JDict (dict_set "video_url" video_url
                        (reply_object (reply_at w1 k))))
              k (poll_fuel max_wait) 0 w1)
    as (w' & Hrun & Hs & Hj & _).
  - pose proof (latencies_nonneg (network w1) k (served w1)).
    unfold check_time in Htime. unfold poll_fuel.
    assert (Z.of_nat k <= max_wait / 10)
      by (apply Z.div_le_lower_bound; lia).
    lia.
  - intros i Hi. rewrite forallb_forall in Hbefore.
    assert (Hin : In i (seq 0 k)) by (apply in_seq; lia).
    apply Hbefore in Hin. unfold retried in Hin.
    destruct (success_of (reply_at w1 i)); [discriminate|]. auto.
  - exact Hok.
  - exact Htime.
  - exists w'.
    rewrite (generate_video_submitted _ _ _ _ _ _ _ _ _ _ _ _ _ _
               Hfirst Hlast).
    rewrite Ha, Hh.
    assert (Hb : exists d, json_body resp = Some (JDict d)).
    { unfold response_task_id in Hid.
      destruct (json_body resp) as [[| | | | | |d]|]; try discriminate.
      exists d. reflexivity. }
    destruct Hb as [d Hb]. rewrite Hb, Hid.
    fold w1.
    assert (P : poll_status task_id api_key max_wait w1
                = (Ok (JDict (dict_set "video_url" video_url
                                (reply_object (reply_at w1 k)))), w'))
      by (unfold poll_status, bind at 1, time_time at 1; exact Hrun).
    rewrite P, dict_lookup_set.
    split; [reflexivity|]. split; [|exact Hj].
    rewrite Hs. subst w1. cbn [served after_submit]. lia.
Qed.

Lemma generate_video_end_to_end_witness :
  exists w',
    reference_run accepted_world
    = (Ok (JStr "https://x/video.mp4", JStr "t-1", reference_frame), w')
    /\ served w' = (served accepted_world + 2 + 1)%nat
    /\ journal w'
       = journal (after_submit accepted_world reference_post)
         ++ rounds (status_get (JStr "t-1") "key") 1
         ++ [status_get (JStr "t-1") "key"].
Proof.
  apply (generate_video_end_to_end Reference.imaging reference_frame
           reference_frame "A cinematic scene" "gen3a_turbo" 5 "1280:768" 0
           false "key" 60 accepted_world
           (encoded_text reference_frame) (encoded_text reference_frame)
           (ok_json (JDict [("id", JStr "t-1")]))
           (JStr "t-1") (JStr "https://x/video.mp4") 1).
  - vm_compute. reflexivity.
  - vm_compute. reflexivity.
  - reflexivity.
  - reflexivity.
  - reflexivity.
  - reflexivity.
  - reflexivity.
  - reflexivity.
  - vm_compute. reflexivity.
Defined.

(** ** The download *)

(** X15: for a non-empty URL with [download] true, when the GET succeeds
    and the file can be opened and written, [preview_video] returns the
    1-tuple of the save path, having made one GET and written the content
    of the response there; the path is [output/<filename>], or [filename]
    itself when that starts with a slash. *)
Theorem preview_video_download_success :
  forall (c : ascii) (rest filename : string) (w : world),
    download_fails w filename = false ->
    let save_path :=
      if starts_with_sep filename then filename
      else ("output/" ++ filename)%string in
    exists resp,
      answer (network w (served w)) = inr resp
      /\ preview_video (String c rest) true filename w
         = (Ok (Tuple1 save_path),
            after_call w [HttpGet [Lit (String c rest)] [];
                          FileOpen save_path;
                          FileWrite save_path (content resp)] 0).
Proof.
  intros c rest filename w. unfold download_fails, preview_video.
  cbn [String.eqb].
  assert (J : os_path_join "output" filename
              = if starts_with_sep filename then filename
                else ("output/" ++ filename)%string) by reflexivity.
  rewrite J. clear J. cbv zeta.
  set (save_path := if starts_with_sep filename then filename
                    else ("output/" ++ filename)%string).
  unfold try_except, bind, requests_get, http_call, raise_for_status,
    file_open, file_write, ret, raise, any_Exception, after_call,
    record_event.
  destruct (answer _) as [e|resp]; [discriminate|].
  destruct (_ && _); [discriminate|].
  cbn -[Z.add]. destruct (disk_open w save_path); [discriminate|].
  cbn -[Z.add]. destruct (disk_write w save_path); [discriminate|].
  intros _. exists resp. split; [reflexivity|].
  cbn -[Z.add]. rewrite <- !app_assoc, Z.add_0_r. reflexivity.
Qed.

Lemma preview_video_download_success_witness :
  exists resp,
    answer (network download_world (served download_world)) = inr resp
    /\ preview_video "https://x/video.mp4" true "runway_video.mp4"
                     download_world
       = (Ok (Tuple1 "output/runway_video.mp4"),
          after_call download_world
            [HttpGet [Lit "https://x/video.mp4"] [];
             FileOpen "output/runway_video.mp4";
             FileWrite "output/runway_video.mp4" (content resp)] 0).
Proof.
  apply (preview_video_download_success "h" "ttps://x/video.mp4"
           "runway_video.mp4" download_world).
  reflexivity.
Defined.

(** ** One submission, one task *)

(** X16: once both frames are encoded, [generate_video] journals exactly
    one POST, first, and after it nothing but status requests for the task
    id of the submission response with ten-second sleeps between them:
    every poll of a run refers to the one task that was submitted. *)
Theorem generate_video_journal_shape :
  forall (lib : Imaging) (first_frame last_frame : frame)
         (promptText model : string) (duration : Z) (ratio : string)
         (seed : Z) (watermark : bool) (api_key : string) (max_wait : Z)
         (w : world) (b64_first b64_last : string),
    encode_image first_frame = inr b64_first ->
    encode_image last_frame = inr b64_last ->
    exists tail,
      journal (snd (generate_video first_frame last_frame promptText model
                      duration ratio seed watermark api_key true max_wait w))
      = journal w
        ++ submit_post api_key b64_first b64_last promptText model duration
                       ratio seed watermark
        :: tail
      /\ (tail = []
          \/ exists resp task_id k,
              answer (network w (served w)) = inr resp
              /\ response_task_id resp = Some task_id
              /\ (tail = rounds (status_get task_id api_key) k
                  \/ tail = rounds (status_get task_id api_key) k
                              ++ [status_get task_id api_key])).
Proof.
  intros lib first_frame last_frame promptText model duration ratio seed
    watermark api_key max_wait w b64_first b64_last Hfirst Hlast.
  rewrite (generate_video_submitted _ _ _ _ _ _ _ _ _ _ _ _ _ _
             Hfirst Hlast).
  set (post := submit_post _ _ _ _ _ _ _ _ _).
  set (w1 := after_submit w post).
  assert (J1 : journal w1 = journal w ++ [post]) by reflexivity.
  assert (E : forall r : result (json * json * frame),
             exists tail,
               journal (snd (r, w1)) = journal w ++ post :: tail
               /\ (tail = []
                   \/ exists resp task_id k,
                       answer (network w (served w)) = inr resp
                       /\ response_task_id resp = Some task_id
                       /\ (tail = rounds (status_get task_id api_key) k
                           \/ tail = rounds (status_get task_id api_key) k
                                       ++ [status_get task_id api_key]))).
  { intro r. exists []. split; [exact J1|left; reflexivity]. }
  destruct (answer (network w (served w))) as [e|resp] eqn:Ha; [apply E|].
  destruct (http_error resp); [apply E|].
  destruct (json_body resp) as [[| | | | | |d]|]; try apply E.
  destruct (response_task_id resp) as [task_id|] eqn:Hid; [|apply E].
  destruct (poll_status task_id api_key max_wait w1) as [rp w2] eqn:Hpoll.
  apply poll_status_trace in Hpoll.
  destruct Hpoll as (_ & _ & _ & k & _ & Hend).
  assert (Q : forall tail,
             journal w2 = journal w1 ++ tail ->
             journal w2 = journal w ++ post :: tail).
  { intros tail H. rewrite H, J1, <- app_assoc. reflexivity. }
  assert (G : forall tail,
             journal w2 = journal w1 ++ tail ->
             tail = rounds (status_get task_id api_key) k
             \/ tail = rounds (status_get task_id api_key) k
                         ++ [status_get task_id api_key] ->
             forall r : result (json * json * frame),
             exists tail',
               journal (snd (r, w2)) = journal w ++ post :: tail'
               /\ (tail' = []
                   \/ exists resp0 task_id0 k0,
                       @inr exn response resp = inr resp0
                       /\ response_task_id resp0 = Some task_id0
                       /\ (tail' = rounds (status_get task_id0 api_key) k0
                           \/ tail' = rounds (status_get task_id0 api_key) k0
                                        ++ [status_get task_id0 api_key]))).
  { intros tail Hj Ht r. exists tail. split; [exact (Q _ Hj)|].
    right. exists resp, task_id, k. auto. }
  destruct rp as [result|e|]; [| |contradiction].
  - destruct Hend as ((_ & Hj & _) & _).
    destruct result as [| | | | | |final]; apply (G _ Hj); auto.
  - destruct Hend as [(_ & (_ & Hj & _) & _)|(_ & (_ & Hj & _) & _)];
      apply (G _ Hj); auto.
Qed.

Lemma generate_video_journal_shape_witness :
  exists tail,
    journal (snd (reference_run accepted_world))
    = journal accepted_world ++ reference_post :: tail
    /\ (tail = []
        \/ exists resp task_id k,
            answer (network accepted_world (served accepted_world))
            = inr resp
            /\ response_task_id resp = Some task_id
            /\ (tail = rounds (status_get task_id "key") k
                \/ tail = rounds (status_get task_id "key") k
                            ++ [status_get task_id "key"])).
Proof.
  apply (generate_video_journal_shape Reference.imaging reference_frame
           reference_frame "A cinematic scene" "gen3a_turbo" 5 "1280:768" 0
           false "key" 60 accepted_world).
  - vm_compute. reflexivity.
  - vm_compute. reflexivity.
Defined.
